(** * PJM zone-wise load dashboard: the data pipeline of [app.py]

    The script loads a spreadsheet into a pandas frame, resolves a timestamp
    column, sorts by it, filters a time window, resamples by bucket means and
    derives KPI scalars, a zone ranking and the target column of the daily
    and hourly charts.  This file embeds that pipeline and proves the
    properties stated about it.

    Conventions of the embedding:
    - a float cell is an [option Qc]: [None] is NaN, arithmetic is exact
      (rounding of binary floats is not modelled);
    - a timestamp is an [option Z]: nanoseconds since the epoch, [None] is
      NaT;
    - a row of a frame is its timestamp together with a finite map from the
      numeric column names to the values present in that row (a name that is
      not mapped is a NaN cell);
    - an exception raised by the script is the result [None]. *)

From Stdlib Require Import Ascii QArith Qcanon Qcabs Qround.
From stdpp Require Import gmap strings list fin_maps numbers sorting.

Local Open Scope Z_scope.

(** ** Values and rows *)

Abbreviation value := (option Qc).
Abbreviation instant := (option Z).

Record row := Row { timestamp : instant; zones : gmap string Qc }.

Record frame := Frame { columns : list string; rows : list row }.

Global Instance row_eq_dec : EqDecision row.
Proof. solve_decision. Defined.

Global Instance frame_eq_dec : EqDecision frame.
Proof. solve_decision. Defined.

(** [df[c]] on a frame of numeric columns. *)
Definition series (c : string) (rs : list row) : list value :=
  (λ r, zones r !! c) <$> rs.

(** ** pandas reductions (all with the default [skipna=True]) *)

Definition Qc_sum (l : list Qc) : Qc := foldr Qcplus 0%Qc l.

Definition Qc_max (x y : Qc) : Qc := if decide (x ≤ y)%Qc then y else x.
Definition Qc_min (x y : Qc) : Qc := if decide (x ≤ y)%Qc then x else y.

(** The cells of a series that are not NaN. *)
Definition dropna (s : list value) : list Qc := omap id s.

(** [Series.sum()]: NaN cells are skipped, the empty sum is 0. *)
Definition nansum (s : list value) : value := Some (Qc_sum (dropna s)).

(** Mean of a list of numbers; NaN when there is none. *)
Definition mean (l : list Qc) : value :=
  match l with
  | [] => None
  | _ :: _ => Some (Qc_sum l / Qc_of_Z (Z.of_nat (length l)))%Qc
  end.

(** [Series.mean()], [Series.max()], [Series.min()]. *)
Definition nanmean (s : list value) : value := mean (dropna s).

Definition nanmax (s : list value) : value :=
  match dropna s with
  | [] => None
  | x :: xs => Some (foldr Qc_max x xs)
  end.

Definition nanmin (s : list value) : value :=
  match dropna s with
  | [] => None
  | x :: xs => Some (foldr Qc_min x xs)
  end.

(** [frame[cols].sum(axis=1)]: one sum per row over the listed columns. *)
Definition row_sum (cols : list string) (r : row) : value :=
  nansum ((λ c, zones r !! c) <$> cols).

Definition sum_axis1 (cols : list string) (rs : list row) : list value :=
  row_sum cols <$> rs.

(** ** load_data *)

(** A cell of the spreadsheet as [read_excel] hands it over: a number, a
    date/time (given by its instant), text that is not a date, or blank. *)
Inductive cell :=
  | CNum (q : Qc)
  | CTime (t : Z)
  | CText (s : string)
  | CNull.

Global Instance cell_eq_dec : EqDecision cell.
Proof. solve_decision. Defined.

Record raw_table := RawTable {
  raw_columns : list string;
  raw_rows : list (gmap string cell)
}.

(** [df[c]] on the raw table. *)
Definition raw_series (c : string) (rs : list (gmap string cell)) : list cell :=
  (λ r, default CNull (r !! c)) <$> rs.

(** [needle in hay] on Python strings. *)
Fixpoint contains (needle hay : string) : bool :=
  String.prefix needle hay ||
  match hay with
  | EmptyString => false
  | String _ rest => contains needle rest
  end.

(** [pd.to_datetime] on one cell: numbers are read as epoch nanoseconds,
    blanks become NaT, other text raises. *)
Definition to_datetime1 (c : cell) : option instant :=
  match c with
  | CTime t => Some (Some t)
  | CNum q => Some (Some (Qfloor q))
  | CNull => Some None
  | CText _ => None
  end.

(** [pd.to_datetime] on a series raises as soon as one cell does. *)
Definition to_datetime (s : list cell) : option (list instant) :=
  mapM to_datetime1 s.

Definition name_matches (c : string) : bool :=
  contains "interval" c && contains "start" c && contains "local" c.

(** The list [time_col_candidates] once the [if] of line 20 is passed. *)
Definition time_col_candidates (t : raw_table) : list string :=
  match List.filter name_matches (raw_columns t) with
  | [] =>
      List.filter (λ c, bool_decide (is_Some (to_datetime (raw_series c (raw_rows t)))))
                  (raw_columns t)
  | byname => byname
  end.

(** [time_col]; [df.columns[0]] raises on a table without columns. *)
Definition time_col (t : raw_table) : option string :=
  match time_col_candidates t with
  | c :: _ => Some c
  | [] => head (raw_columns t)
  end.

(** Order of [sort_values]: ascending instants, NaT last. *)
Definition instant_le (x y : instant) : Prop :=
  match x, y with
  | Some a, Some b => a ≤ b
  | _, None => True
  | None, Some _ => False
  end.

Definition row_le (r1 r2 : row) : Prop :=
  instant_le (timestamp r1) (timestamp r2).

Global Instance instant_le_dec : RelDecision instant_le.
Proof. intros [a|] [b|]; simpl; apply _. Defined.

Global Instance row_le_dec : RelDecision row_le.
Proof. intros r1 r2. unfold row_le. apply _. Defined.

Definition cell_is_number (c : cell) : bool :=
  match c with
  | CNum _ | CNull => true
  | _ => false
  end.

Definition cell_value (c : cell) : value :=
  match c with
  | CNum q => Some q
  | _ => None
  end.

(** [select_dtypes(include=[np.number])] after the column ["timestamp"] has
    been (over)written with instants. *)
Definition select_numeric (t : raw_table) : list string :=
  List.filter
    (λ c, negb (String.eqb c "timestamp") &&
          forallb cell_is_number (raw_series c (raw_rows t)))
    (raw_columns t).

(** The numeric cells of one raw row, restricted to the numeric columns. *)
Definition numeric_part (cols : list string) (r : gmap string cell) : gmap string Qc :=
  list_to_map (omap (λ c, (c,.) <$> (r !! c ≫= cell_value)) cols).

(** [load_data]: the sorted frame and [numeric_cols].  The sort of
    [sort_values] is modelled by a merge sort; the order it gives to rows of
    equal timestamp is not used by any statement below. *)
Definition load_data (t : raw_table) : option (list row * list string) :=
  c ← time_col t;
  ts ← to_datetime (raw_series c (raw_rows t));
  let numeric_cols := select_numeric t in
  let df := zip_with (λ i r, Row i (numeric_part numeric_cols r)) ts (raw_rows t) in
  Some (merge_sort row_le df, numeric_cols).

(** ** Time window *)

(** The mask of line 75; a comparison with NaT is False. *)
Definition in_window (start end_ : Z) (r : row) : Prop :=
  match timestamp r with
  | Some t => start ≤ t ∧ t ≤ end_
  | None => False
  end.

Global Instance in_window_dec start end_ r : Decision (in_window start end_ r).
Proof. unfold in_window. destruct (timestamp r); apply _. Defined.

(** [df.loc[mask]] *)
Definition time_filter (start end_ : Z) (df : list row) : list row :=
  filter (in_window start end_) df.

(** ** Resampling *)

Inductive ResampleRule := R5T | R15T | R30T | R1H | R6H | R1D.

Global Instance ResampleRule_eq_dec : EqDecision ResampleRule.
Proof. solve_decision. Defined.

Definition minute_ns : Z := 60 * 1000000000.

(** Width of a bucket in nanoseconds. *)
Definition rule_width (r : ResampleRule) : Z :=
  match r with
  | R5T => 5 * minute_ns
  | R15T => 15 * minute_ns
  | R30T => 30 * minute_ns
  | R1H => 60 * minute_ns
  | R6H => 360 * minute_ns
  | R1D => 1440 * minute_ns
  end.

(** Left edge of the bucket of [t].  Every width above divides a day, so the
    bins pandas anchors at the midnight before the first row are the
    multiples of the width. *)
Definition bucket_start (w t : Z) : Z := w * (t `div` w).

Definition bucket_of (w : Z) (r : row) : instant := bucket_start w <$> timestamp r.

(** The values of column [c] that are present in the rows [rs]. *)
Definition present (c : string) (rs : list row) : list Qc :=
  omap (λ r, zones r !! c) rs.

(** One output row of [.mean(numeric_only=True)]: per column, the mean of
    the values present in the group, NaN when the group has none. *)
Definition group_mean (cols : list string) (rs : list row) : gmap string Qc :=
  list_to_map (omap (λ c, (c,.) <$> mean (present c rs)) cols).

(** Left edges of all bins from the bin of the earliest row to the bin of the
    latest row. *)
Definition bin_edges (w lo hi : Z) : list Z :=
  (λ k, bucket_start w lo + k * w) <$>
    seqZ 0 ((bucket_start w hi - bucket_start w lo) `div` w + 1).

(** [set_index("timestamp").resample(rule).mean(numeric_only=True)
    .reset_index()] on rows whose numeric columns are [cols]. *)
Definition resample_width (w : Z) (cols : list string) (rs : list row) : list row :=
  match omap timestamp rs with
  | [] => []
  | t0 :: ts =>
      (λ b, Row (Some b)
                (group_mean cols (filter (λ r, bucket_of w r = Some b) rs)))
        <$> bin_edges w (foldr Z.min t0 ts) (foldr Z.max t0 ts)
  end.

Definition resample (rule : ResampleRule) (cols : list string) (rs : list row) : list row :=
  resample_width (rule_width rule) cols rs.

(** ** KPI target and KPI cards *)

(** [series_for_kpis], with the globals [selected_zones] and [numeric_cols]
    as arguments.  The multiselect only offers [numeric_cols], which are the
    columns of the view, so the column lookups cannot raise. *)
Definition series_for_kpis (numeric_cols selected_zones : list string)
    (df_view : frame) : list value :=
  if decide ("pjm_rto" ∈ columns df_view) then series "pjm_rto" (rows df_view)
  else match selected_zones with
       | _ :: _ => sum_axis1 selected_zones (rows df_view)
       | [] => sum_axis1 numeric_cols (rows df_view)
       end.

(** [x != 0] on a float: NaN is different from 0. *)
Definition nonzero (v : value) : bool :=
  match v with
  | Some q => negb (bool_decide (q = 0%Qc))
  | None => true
  end.

(** [((last - first) / abs(first)) * 100] on floats: NaN propagates. *)
Definition pct_formula (first last : value) : value :=
  f ← first; l ← last; Some ((l - f) / Qcabs f * Qc_of_Z 100)%Qc.

(** [pct] of lines 111-113; [iloc[0]] and [iloc[-1]] of a non-empty series. *)
Definition pct (target : list value) : value :=
  match target, last target with
  | first :: _, Some lst =>
      if bool_decide (2 ≤ length target)%nat && nonzero first
      then pct_formula first lst
      else None
  | _, _ => None
  end.

Record KPISet := KPIs { peak : value; trough : value; average : value; percentChange : value }.

Global Instance KPISet_eq_dec : EqDecision KPISet.
Proof. solve_decision. Defined.

(** The four cards; nothing is rendered when the target is empty. *)
Definition kpi_cards (target : list value) : option KPISet :=
  match target with
  | [] => None
  | _ :: _ => Some (KPIs (nanmax target) (nanmin target) (nanmean target) (pct target))
  end.

(** ** Zone ranking *)

(** Descending order of [sort_values(ascending=False)], NaN last. *)
Definition rank_ge (x y : string * value) : Prop :=
  match x.2, y.2 with
  | Some a, Some b => (b ≤ a)%Qc
  | _, None => True
  | None, Some _ => False
  end.

Global Instance rank_ge_dec : RelDecision rank_ge.
Proof. intros [? [a|]] [? [b|]]; unfold rank_ge; simpl; apply _. Defined.

(** [view[numeric_cols].mean(numeric_only=True).sort_values(ascending=False)] *)
Definition zone_means (numeric_cols : list string) (view : frame) : list (string * value) :=
  merge_sort rank_ge ((λ c, (c, nanmean (series c (rows view)))) <$> numeric_cols).

(** ** Target column of the daily and hourly charts *)

(** [ycol] (and [ycol2]); [numeric_cols[0]] raises on an empty list. *)
Definition ycol (numeric_cols selected_zones : list string) (day : frame) : option string :=
  if decide ("pjm_rto" ∈ columns day) then Some "pjm_rto"
  else match selected_zones with
       | z :: _ => Some z
       | [] => head numeric_cols
       end.

(** The series plotted for a frame: [frame[ycol]]. *)
Definition group_target (numeric_cols selected_zones : list string)
    (f : frame) : option (list value) :=
  c ← ycol numeric_cols selected_zones f; Some (series c (rows f)).

(** ** The script from the sidebar values to what is handed to the charts *)

Record config := Config {
  start : Z;
  end_ : Z;
  selected_zones : list string;
  resample_rule : ResampleRule
}.

Record dashboard := Dashboard {
  out_view : frame;
  out_kpis : option KPISet;
  out_zone_means : list (string * value);
  out_day : frame;
  out_ycol : option string
}.

Definition run (df : list row) (numeric_cols : list string) (cfg : config) : dashboard :=
  let view :=
    Frame numeric_cols
      (resample (resample_rule cfg) numeric_cols
         (time_filter (start cfg) (end_ cfg) df)) in
  let target := series_for_kpis numeric_cols (selected_zones cfg) view in
  let day := Frame numeric_cols (resample R1D numeric_cols (rows view)) in
  Dashboard view (kpi_cards target) (zone_means numeric_cols view) day
    (ycol numeric_cols (selected_zones cfg) day).

(** ** Notions used to state the properties *)

(** The half-open time range [[b, b + w)] of the bucket that starts at [b]. *)
Definition in_bucket (w b : Z) (r : row) : Prop :=
  match timestamp r with
  | Some t => b ≤ t ∧ t < b + w
  | None => False
  end.

Global Instance in_bucket_dec w b r : Decision (in_bucket w b r).
Proof. unfold in_bucket. destruct (timestamp r); apply _. Defined.

(** [c] is the first element of [l], in the order of [l], for which [P]
    holds. *)
Definition first_with {A} (P : A → Prop) (l : list A) (c : A) : Prop :=
  ∃ before after, l = before ++ c :: after ∧ P c ∧ Forall (λ x, ¬ P x) before.

(** Every value of column [c] can be read as a date/time. *)
Definition column_parses (t : raw_table) (c : string) : Prop :=
  Forall (λ x, is_Some (to_datetime1 x)) (raw_series c (raw_rows t)).

(** The rows of the table with the column [c] read as their timestamp, in
    the order of the sheet. *)
Definition parsed_rows (t : raw_table) (c : string) (df : list row) : Prop :=
  Forall2
    (λ raw r, to_datetime1 (default CNull (raw !! c)) = Some (timestamp r) ∧
              zones r = numeric_part (select_numeric t) raw)
    (raw_rows t) df.

(** Case-insensitive reading of the name test, as the specification words
    it: the name is lowered before the three substrings are looked for. *)
Definition lower_ascii (a : ascii) : ascii :=
  let n := nat_of_ascii a in
  if ((65 <=? n) && (n <=? 90))%nat then ascii_of_nat (n + 32) else a.

Fixpoint lower (s : string) : string :=
  match s with
  | EmptyString => EmptyString
  | String a rest => String (lower_ascii a) (lower rest)
  end.

Definition name_matches_nocase (c : string) : bool := name_matches (lower c).

(** ** Sample inputs *)

Definition hour_ns : Z := 60 * minute_ns.

Definition q (n : Z) : Qc := Qc_of_Z n.

(** Two readings of one zone, two hours apart: the hour between them has
    no reading. *)
Definition gap_rows : list row :=
  [ Row (Some 0) {[ "east" := q 5 ]};
    Row (Some (2 * hour_ns)) {[ "east" := q 7 ]} ].

Definition gap_config : config := Config 0 (2 * hour_ns) ["east"] R1H.

(** Four quarter-hour readings of two zones with one blank cell, followed by
    a row without timestamp. *)
Definition quarter_rows : list row :=
  [ Row (Some 0) {[ "east" := q 10; "west" := q 1 ]};
    Row (Some (15 * minute_ns)) {[ "east" := q 20 ]};
    Row (Some (60 * minute_ns)) {[ "east" := q 30; "west" := q 3 ]};
    Row (Some (75 * minute_ns)) {[ "east" := q 50; "west" := q 5 ]};
    Row None {[ "east" := q 99 ]} ].

(** One row with a total zone and two regional zones. *)
Definition total_frame : frame :=
  Frame ["pjm_rto"; "east"; "west"]
    [ Row (Some 0) {[ "pjm_rto" := q 30; "east" := q 10; "west" := q 20 ]};
      Row (Some hour_ns) {[ "pjm_rto" := q 50; "east" := q 15 ]} ].

(** The same without the total zone. *)
Definition regional_frame : frame :=
  Frame ["east"; "west"]
    [ Row (Some 0) {[ "east" := q 10; "west" := q 20 ]};
      Row (Some hour_ns) {[ "east" := q 15 ]} ].

(** A sheet whose time column is spelled with capitals, after a column of
    dates. *)
Definition mixed_case_table : raw_table :=
  RawTable ["when"; "Interval_Start_Local"; "east"]
    [ {[ "when" := CTime 7; "Interval_Start_Local" := CTime 20; "east" := CNum (q 1) ]};
      {[ "when" := CTime 9; "Interval_Start_Local" := CTime 10; "east" := CNum (q 2) ]} ].

(** A sheet with the lower-case time column, out of order and with a text
    column. *)
Definition pjm_table : raw_table :=
  RawTable ["note"; "interval_start_local"; "east"]
    [ {[ "note" := CText "b"; "interval_start_local" := CTime 20; "east" := CNum (q 2) ]};
      {[ "note" := CText "a"; "interval_start_local" := CTime 10; "east" := CNum (q 1) ]} ].

(** ** The sidebar *)

Definition day_ns : Z := 1440 * minute_ns.

(** [df["timestamp"].min()] and [.max()]: NaT is skipped, and is the result
    when there is no timestamp at all. *)
Definition min_t (df : list row) : instant :=
  match omap timestamp df with
  | [] => None
  | t0 :: ts => Some (foldr Z.min t0 ts)
  end.

Definition max_t (df : list row) : instant :=
  match omap timestamp df with
  | [] => None
  | t0 :: ts => Some (foldr Z.max t0 ts)
  end.


(** The zone names of line 60. *)
Definition preset_zones : list string :=
  ["pjm_rto"; "pjm_eastern_region"; "pjm_western_region"; "pjm_southern_region"; "dom"].

Definition default_zones (numeric_cols : list string) : list string :=
  filter (λ c, c ∈ numeric_cols) preset_zones.

(** The [default] of the multiselect: [default_zones] when it is not empty,
    else [numeric_cols[:5]]. *)
Definition default_selection (numeric_cols : list string) : list string :=
  match default_zones numeric_cols with
  | [] => take 5 numeric_cols
  | dz => dz
  end.

(** ** The charts *)

(** One row of [view.melt(id_vars="timestamp", value_vars=..., var_name="Zone",
    value_name="Load (MW)")]. *)
Record melted := Melted { m_timestamp : instant; m_zone : string; m_load : value }.

(** [melt] stacks the columns one after the other: all rows of the first
    zone, then all rows of the second, and so on. *)
Definition melt (value_vars : list string) (view : list row) : list melted :=
  z ← value_vars; (λ r, Melted (timestamp r) z (zones r !! z)) <$> view.

(** What the line chart receives; with nothing selected the script shows a
    hint instead of a chart. *)
Definition trend_data (selected_zones : list string) (view : list row) : option (list melted) :=
  match selected_zones with
  | [] => None
  | _ :: _ => Some (melt selected_zones view)
  end.

(** [Series.head(n)] and [Series.tail(n)] for a count [n] that is not
    negative. *)
Definition head_n {A} (n : nat) (s : list A) : list A := take n s.
Definition tail_n {A} (n : nat) (s : list A) : list A := drop (length s - n) s.

(** Ascending order of [sort_values("Avg Load (MW)")], NaN last. *)
Definition rank_le (x y : string * value) : Prop :=
  match x.2, y.2 with
  | Some a, Some b => (a ≤ b)%Qc
  | _, None => True
  | None, Some _ => False
  end.

Global Instance rank_le_dec : RelDecision rank_le.
Proof. intros [? [a|]] [? [b|]]; unfold rank_le; simpl; apply _. Defined.

(** [top_df] and the frame plotted as "Bottom Zones". *)
Definition top_df (top_n : nat) (zone_means : list (string * value)) : list (string * value) :=
  head_n top_n zone_means.

Definition bottom_df (top_n : nat) (zone_means : list (string * value)) : list (string * value) :=
  tail_n top_n zone_means.

Definition bottom_chart (top_n : nat) (zone_means : list (string * value)) : list (string * value) :=
  merge_sort rank_le (bottom_df top_n zone_means).

(** [dt.hour] of a timestamp without time zone. *)
Definition hour_of (t : Z) : Z := (t `mod` day_ns) `div` hour_ns.

(** The rows of [tmp] whose ["hour"] is [h]. *)
Definition hour_group (h : Z) (view : list row) : list row :=
  filter (λ r, hour_of <$> timestamp r = Some h) view.

(** [tmp.groupby("hour")[ycol2].mean().reset_index()]: one row per clock hour
    that occurs in the view, in ascending order of the hour. *)
Definition hourly (ycol2 : string) (view : list row) : list (Z * value) :=
  omap (λ h, match hour_group h view with
             | [] => None
             | grp => Some (h, mean (present ycol2 grp))
             end)
       (seqZ 0 24).

Global Instance column_parses_dec t c : Decision (column_parses t c).
Proof. unfold column_parses. apply _. Defined.

(** ** Further sample inputs *)

(** A sheet without any column that reads as dates. *)
Definition text_table : raw_table :=
  RawTable ["note"; "code"]
    [ {[ "note" := CText "a"; "code" := CText "x" ]};
      {[ "note" := CText "b"; "code" := CNum (q 3) ]} ].

(** A sheet whose column of the expected name holds text, next to a column
    of dates. *)
Definition bad_name_table : raw_table :=
  RawTable ["when"; "interval_start_local"]
    [ {[ "when" := CTime 7; "interval_start_local" := CText "noon" ]} ].

(** A sheet of dates without a column of the expected name. *)
Definition dated_table : raw_table :=
  RawTable ["note"; "when"; "east"]
    [ {[ "note" := CText "b"; "when" := CTime 20; "east" := CNum (q 2) ]};
      {[ "note" := CText "a"; "when" := CTime 10 ]} ].

(** * Properties *)

(** ** Arithmetic of buckets *)

Lemma rule_width_pos rule : 0 < rule_width rule.
Proof. destruct rule; reflexivity. Qed.

Lemma bucket_start_range w t : 0 < w → bucket_start w t ≤ t < bucket_start w t + w.
Proof.
  intros Hw. unfold bucket_start.
  pose proof (Z.mod_pos_bound t w Hw). pose proof (Z.div_mod t w). lia.
Qed.

Lemma bucket_start_divide w t : (w | bucket_start w t).
Proof. exists (t `div` w). unfold bucket_start. lia. Qed.

Lemma bucket_start_unique w b t :
  0 < w → (w | b) → b ≤ t < b + w → bucket_start w t = b.
Proof.
  intros Hw [k ->] Ht. unfold bucket_start.
  assert (t `div` w = k) as ->; [|lia].
  symmetry. apply (Z.div_unique_pos t w k (t - k * w)); lia.
Qed.

Lemma bucket_start_fixed w b : 0 < w → (w | b) → bucket_start w b = b.
Proof. intros. apply bucket_start_unique; [done..|lia]. Qed.

Lemma bucket_start_mono w s t : 0 < w → s ≤ t → bucket_start w s ≤ bucket_start w t.
Proof.
  intros Hw Hst. unfold bucket_start.
  apply Z.mul_le_mono_nonneg_l; [lia|]. by apply Z.div_le_mono.
Qed.

(** A row lies in the bucket keyed [b] exactly when its timestamp lies in
    the half-open range that starts at [b]. *)
Lemma bucket_of_in_bucket w b r :
  0 < w → (w | b) → bucket_of w r = Some b ↔ in_bucket w b r.
Proof.
  intros Hw Hb. unfold bucket_of, in_bucket.
  destruct (timestamp r) as [t|]; simpl; [|by split].
  split.
  - intros [= <-]. pose proof (bucket_start_range w t Hw). lia.
  - intros Ht. f_equal. apply bucket_start_unique; [done..|lia].
Qed.

Lemma elem_of_bin_edges w lo hi b :
  0 < w →
  b ∈ bin_edges w lo hi ↔ (w | b) ∧ bucket_start w lo ≤ b ≤ bucket_start w hi.
Proof.
  intros Hw. unfold bin_edges. rewrite list_elem_of_fmap.
  setoid_rewrite elem_of_seqZ.
  destruct (bucket_start_divide w lo) as [kl Hl].
  destruct (bucket_start_divide w hi) as [kh Hh].
  rewrite Hl, Hh.
  replace (kh * w - kl * w) with ((kh - kl) * w) by lia.
  rewrite Z.div_mul by lia.
  split.
  - intros (k & -> & Hk). split; [exists (kl + k); lia|nia].
  - intros [[kb ->] Hb]. exists (kb - kl). split; [lia|nia].
Qed.

(** ** Bucket means *)

Lemma group_mean_lookup cols rs c :
  group_mean cols rs !! c = if decide (c ∈ cols) then mean (present c rs) else None.
Proof.
  unfold group_mean. induction cols as [|c' cols IH]; csimpl; [done|].
  destruct (decide (c = c')) as [->|Hne].
  - rewrite decide_True by left.
    destruct (mean (present c' rs)) as [m|] eqn:Hm; csimpl.
    + by rewrite lookup_insert_eq.
    + rewrite IH. by case_decide.
  - destruct (mean (present c' rs)) as [m|]; csimpl.
    + rewrite lookup_insert_ne by done. rewrite IH.
      apply decide_ext. rewrite elem_of_cons. tauto.
    + rewrite IH. apply decide_ext. rewrite elem_of_cons. tauto.
Qed.

Lemma present_filter_ext (P Q : row → Prop) `{!∀ r, Decision (P r), !∀ r, Decision (Q r)}
    c (rs : list row) :
  (∀ r, P r ↔ Q r) → present c (filter P rs) = present c (filter Q rs).
Proof. intros HPQ. f_equal. by apply list_filter_iff. Qed.

Lemma filter_none {A} (P : A → Prop) `{!∀ x, Decision (P x)} (l : list A) :
  Forall (λ x, ¬ P x) l → filter P l = [].
Proof.
  induction 1 as [|x l Hx _ IH]; [done|]. by rewrite filter_cons_False.
Qed.

Lemma mean_nil_iff l : mean l = None ↔ l = [].
Proof. by destruct l. Qed.

(** The entries of a resampled frame, one by one. *)
Lemma elem_of_resample_width w cols rs e :
  e ∈ resample_width w cols rs ↔
  ∃ t0 ts b, omap timestamp rs = t0 :: ts ∧
    b ∈ bin_edges w (foldr Z.min t0 ts) (foldr Z.max t0 ts) ∧
    e = Row (Some b) (group_mean cols (filter (λ r, bucket_of w r = Some b) rs)).
Proof.
  unfold resample_width. destruct (omap timestamp rs) as [|t0 ts].
  - split; [by intros ?%elem_of_nil|]. by intros (? & ? & ? & [=] & _).
  - rewrite list_elem_of_fmap. split.
    + intros (b & -> & Hb). by exists t0, ts, b.
    + intros (? & ? & b & [= <- <-] & Hb & ->). by exists b.
Qed.

(** C1: every entry of the resampled frame carries a bucket start, and for
    each zone its value is the arithmetic mean of the values present in the
    rows whose timestamp lies in that bucket's half-open range: missing
    values count neither in the sum nor in the count, and a zone without any
    present value in the bucket is missing in the entry, not zero. *)
Theorem resample_entry_is_bucket_mean rule cols rs e :
  e ∈ resample rule cols rs →
  ∃ b, timestamp e = Some b ∧
    ∀ z, z ∈ cols →
      let xs := present z (filter (in_bucket (rule_width rule) b) rs) in
      (xs = [] → zones e !! z = None) ∧
      (xs ≠ [] →
         zones e !! z = Some (Qc_sum xs / Qc_of_Z (Z.of_nat (length xs)))%Qc).
Proof.
  pose proof (rule_width_pos rule) as Hw.
  unfold resample. rewrite elem_of_resample_width.
  intros (t0 & ts & b & _ & Hb & ->). exists b. split; [done|].
  apply (elem_of_bin_edges _ _ _ _ Hw) in Hb as [Hdiv _].
  intros z Hz. simpl. rewrite group_mean_lookup, decide_True by done.
  rewrite (present_filter_ext (λ r, bucket_of (rule_width rule) r = Some b)
             (in_bucket (rule_width rule) b));
    [|intros r; by apply bucket_of_in_bucket].
  destruct (present z _); [done|]. split; [done|]. by intros _.
Qed.

Example resample_quarter_rows :
  resample R1H ["east"; "west"] quarter_rows =
  [ Row (Some 0) {[ "east" := q 15; "west" := q 1 ]};
    Row (Some hour_ns) {[ "east" := q 40; "west" := q 4 ]} ].
Proof. compute_done. Qed.

Example resample_gap_rows :
  resample R1H ["east"] gap_rows =
  [ Row (Some 0) {[ "east" := q 5 ]};
    Row (Some hour_ns) ∅;
    Row (Some (2 * hour_ns)) {[ "east" := q 7 ]} ].
Proof. compute_done. Qed.

Lemma resample_entry_is_bucket_mean_witness :
  ∃ b, timestamp (Row (Some 0) {[ "east" := q 15; "west" := q 1 ]}) = Some b ∧
    ∀ z, z ∈ ["east"; "west"] →
      let xs := present z (filter (in_bucket (rule_width R1H) b) quarter_rows) in
      (xs = [] →
         zones (Row (Some 0) {[ "east" := q 15; "west" := q 1 ]}) !! z = None) ∧
      (xs ≠ [] →
         zones (Row (Some 0) {[ "east" := q 15; "west" := q 1 ]}) !! z =
         Some (Qc_sum xs / Qc_of_Z (Z.of_nat (length xs)))%Qc).
Proof.
  apply (resample_entry_is_bucket_mean R1H ["east"; "west"] quarter_rows).
  compute_done.
Defined.

(** ** Extent of the resampled frame *)

Lemma foldr_min_spec t0 ts :
  foldr Z.min t0 ts ∈ t0 :: ts ∧ ∀ t, t ∈ t0 :: ts → foldr Z.min t0 ts ≤ t.
Proof.
  induction ts as [|t ts [IHin IHle]]; simpl.
  - split; [left|]. intros t ?%list_elem_of_singleton. lia.
  - split.
    + destruct (Z.min_spec t (foldr Z.min t0 ts)) as [[_ ->]|[_ ->]].
      * right; left.
      * apply elem_of_cons in IHin as [->|?]; [left|by do 2 right].
    + intros t' [->|[->|Ht']%elem_of_cons]%elem_of_cons.
      * specialize (IHle t0 ltac:(left)). lia.
      * lia.
      * specialize (IHle t' ltac:(by right)). lia.
Qed.

Lemma foldr_max_spec t0 ts :
  foldr Z.max t0 ts ∈ t0 :: ts ∧ ∀ t, t ∈ t0 :: ts → t ≤ foldr Z.max t0 ts.
Proof.
  induction ts as [|t ts [IHin IHle]]; simpl.
  - split; [left|]. intros t ?%list_elem_of_singleton. lia.
  - split.
    + destruct (Z.max_spec t (foldr Z.max t0 ts)) as [[_ ->]|[_ ->]].
      * apply elem_of_cons in IHin as [->|?]; [left|by do 2 right].
      * right; left.
    + intros t' [->|[->|Ht']%elem_of_cons]%elem_of_cons.
      * specialize (IHle t0 ltac:(left)). lia.
      * lia.
      * specialize (IHle t' ltac:(by right)). lia.
Qed.

Lemma foldr_min_unique t0 ts m :
  m ∈ t0 :: ts → (∀ t, t ∈ t0 :: ts → m ≤ t) → foldr Z.min t0 ts = m.
Proof.
  intros Hin Hle. destruct (foldr_min_spec t0 ts) as [Hin' Hle'].
  specialize (Hle _ Hin'). specialize (Hle' _ Hin). lia.
Qed.

Lemma foldr_max_unique t0 ts m :
  m ∈ t0 :: ts → (∀ t, t ∈ t0 :: ts → t ≤ m) → foldr Z.max t0 ts = m.
Proof.
  intros Hin Hle. destruct (foldr_max_spec t0 ts) as [Hin' Hle'].
  specialize (Hle _ Hin'). specialize (Hle' _ Hin). lia.
Qed.

Lemma StronglySorted_seq a n : StronglySorted lt (seq a n).
Proof.
  revert a. induction n as [|n IH]; intros a; simpl; constructor; [done|].
  apply Forall_forall. intros x Hx%elem_of_seq. lia.
Qed.

Lemma StronglySorted_seqZ m n : StronglySorted Z.lt (seqZ m n).
Proof.
  unfold seqZ. apply (StronglySorted_fmap _ lt); [|apply StronglySorted_seq].
  intros x y. lia.
Qed.

Lemma StronglySorted_bin_edges w lo hi :
  0 < w → StronglySorted Z.lt (bin_edges w lo hi).
Proof.
  intros Hw. unfold bin_edges.
  apply (StronglySorted_fmap _ Z.lt); [|apply StronglySorted_seqZ].
  intros x y. nia.
Qed.

Lemma StronglySorted_lt_NoDup (l : list Z) : StronglySorted Z.lt l → NoDup l.
Proof.
  induction 1 as [|x l _ IH Hall]; constructor; [|done].
  intros Hx. rewrite Forall_forall in Hall. specialize (Hall _ Hx). lia.
Qed.

Lemma omap_timestamp_resample_width w cols rs t0 ts :
  omap timestamp rs = t0 :: ts →
  timestamp <$> resample_width w cols rs =
  Some <$> bin_edges w (foldr Z.min t0 ts) (foldr Z.max t0 ts).
Proof.
  intros Hts. unfold resample_width. rewrite Hts.
  rewrite <-list_fmap_compose. by apply list_fmap_ext.
Qed.

Lemma elem_of_timestamps (rs : list row) t :
  Some t ∈ timestamp <$> rs ↔ t ∈ omap timestamp rs.
Proof.
  rewrite list_elem_of_fmap, list_elem_of_omap.
  split; intros (r & ? & ?); by exists r.
Qed.

(** C3, as stated, fails: between two readings two hours apart the hourly
    resampling emits an entry for the hour in between, although no input row
    falls in that bucket. *)
Lemma resample_emits_empty_bucket :
  Row (Some hour_ns) ∅ ∈ resample R1H ["east"] gap_rows ∧
  ∀ r, r ∈ gap_rows → ¬ in_bucket (rule_width R1H) hour_ns r.
Proof.
  split; [compute_done|].
  intros r Hr. unfold gap_rows in Hr.
  apply elem_of_cons in Hr as [->|Hr]; [compute_done|].
  apply list_elem_of_singleton in Hr as ->. compute_done.
Qed.

(** C3, amended: the resampled frame has exactly one entry for every bucket
    from the bucket of the earliest input row to the bucket of the latest
    one, in strictly ascending bucket order; a bucket of that span into
    which no input row falls is emitted too, with every zone missing. *)
Theorem resample_covers_bucket_span rule cols rs :
  let w := rule_width rule in
  let out := resample rule cols rs in
  (∀ b, Some b ∈ timestamp <$> out ↔
        (w | b) ∧
        ∃ t1 t2, Some t1 ∈ timestamp <$> rs ∧ Some t2 ∈ timestamp <$> rs ∧
                 bucket_start w t1 ≤ b ≤ bucket_start w t2) ∧
  (∃ bs, timestamp <$> out = Some <$> bs ∧ StronglySorted Z.lt bs) ∧
  (∀ e b, e ∈ out → timestamp e = Some b →
          Forall (λ r, ¬ in_bucket w b r) rs → zones e = ∅).
Proof.
  intros w out. pose proof (rule_width_pos rule) as Hw. fold w in Hw.
  subst out. unfold resample. fold w.
  destruct (omap timestamp rs) as [|t0 ts] eqn:Hts.
  { unfold resample_width. rewrite Hts. split; [|split].
    - intros b. split; [by intros ?%elem_of_nil|].
      intros (_ & t1 & _ & Ht1%elem_of_timestamps & _).
      rewrite Hts in Ht1. by apply elem_of_nil in Ht1.
    - exists []. split; [done|constructor].
    - by intros e b ?%elem_of_nil. }
  destruct (foldr_min_spec t0 ts) as [Hmin_in Hmin].
  destruct (foldr_max_spec t0 ts) as [Hmax_in Hmax].
  rewrite <-Hts in Hmin_in, Hmax_in, Hmin, Hmax.
  split; [|split].
  - intros b. rewrite (omap_timestamp_resample_width _ _ _ _ _ Hts).
    rewrite list_elem_of_fmap. split.
    + intros (b' & [= <-] & Hb). apply elem_of_bin_edges in Hb as [Hdiv Hb]; [|done].
      split; [done|]. exists (foldr Z.min t0 ts), (foldr Z.max t0 ts).
      by rewrite !elem_of_timestamps.
    + intros (Hdiv & t1 & t2 & Ht1%elem_of_timestamps & Ht2%elem_of_timestamps & Hb).
      exists b. split; [done|]. apply elem_of_bin_edges; [done|]. split; [done|].
      pose proof (bucket_start_mono w _ _ Hw (Hmin _ Ht1)).
      pose proof (bucket_start_mono w _ _ Hw (Hmax _ Ht2)). lia.
  - eexists. split; [by apply omap_timestamp_resample_width|].
    by apply StronglySorted_bin_edges.
  - intros e b (t0' & ts' & b' & _ & Hb' & ->)%elem_of_resample_width [= ->] Hempty.
    apply elem_of_bin_edges in Hb' as [Hdiv _]; [|done]. simpl.
    apply map_eq. intros c. rewrite lookup_empty, group_mean_lookup.
    case_decide; [|done]. apply mean_nil_iff.
    unfold present. rewrite filter_none; [done|].
    eapply Forall_impl; [exact Hempty|]. intros r Hr Hb. apply Hr.
    by apply bucket_of_in_bucket.
Qed.

(** ** Resampling a resampled frame *)

Lemma Qc_of_Z_1 : Qc_of_Z 1 = 1%Qc.
Proof. by apply Qc_is_canon. Qed.

Lemma mean_singleton v : mean [v] = Some v.
Proof.
  unfold mean. f_equal.
  change (Qc_sum [v]) with (v + 0)%Qc. change (Z.of_nat (length [v])) with 1.
  rewrite Qcplus_0_r, Qc_of_Z_1. apply Qcdiv_right_id.
Qed.

(** A group made of one row reduces to that row's values in the listed
    columns. *)
Lemma group_mean_singleton cols r c :
  group_mean cols [r] !! c = if decide (c ∈ cols) then zones r !! c else None.
Proof.
  rewrite group_mean_lookup. case_decide; [|done].
  unfold present. simpl. destruct (zones r !! c) as [v|]; simpl; [|done].
  apply mean_singleton.
Qed.

Lemma group_mean_idemp cols rs grp :
  group_mean cols [Row grp (group_mean cols rs)] = group_mean cols rs.
Proof.
  apply map_eq. intros c. rewrite group_mean_singleton. simpl.
  rewrite group_mean_lookup. by case_decide.
Qed.

Lemma filter_fmap_unique {A B} (P : B → Prop) `{!∀ y, Decision (P y)}
    (g : A → B) (l : list A) (a : A) :
  NoDup l → a ∈ l → (∀ a', a' ∈ l → P (g a') ↔ a' = a) →
  filter P (g <$> l) = [g a].
Proof.
  induction 1 as [|x l Hx Hnd IH]; [by intros ?%elem_of_nil|].
  intros Ha HP. rewrite fmap_cons.
  destruct (decide (P (g x))) as [HPx|HPx].
  - rewrite filter_cons_True by done.
    apply HP in HPx as ->; [|left]. f_equal.
    apply filter_none, Forall_forall. intros y (a' & -> & Ha')%list_elem_of_fmap Hy.
    apply HP in Hy; [|by right]. by subst.
  - rewrite filter_cons_False by done.
    apply IH.
    + apply elem_of_cons in Ha as [->|?]; [|done].
      destruct HPx. apply HP; [left|done].
    + intros a' Ha'. apply HP. by right.
Qed.

Lemma resample_width_idemp w cols rs :
  0 < w →
  resample_width w cols (resample_width w cols rs) = resample_width w cols rs.
Proof.
  intros Hw. destruct (omap timestamp rs) as [|t0 ts] eqn:Hts.
  { assert (resample_width w cols rs = []) as ->; [|done].
    unfold resample_width. by rewrite Hts. }
  destruct (foldr_min_spec t0 ts) as [Hlo_in Hlo].
  destruct (foldr_max_spec t0 ts) as [Hhi_in Hhi].
  set (lo := foldr Z.min t0 ts) in *. set (hi := foldr Z.max t0 ts) in *.
  assert (lo ≤ hi) as Hlohi.
  { specialize (Hlo t0 ltac:(left)). specialize (Hhi t0 ltac:(left)). lia. }
  pose proof (bucket_start_mono w lo hi Hw Hlohi) as Hblohi.
  assert (omap timestamp (resample_width w cols rs) = bin_edges w lo hi) as Hts'.
  { unfold resample_width. rewrite Hts. fold lo hi.
    induction (bin_edges w lo hi) as [|b bs IH]; [done|]. csimpl. by rewrite IH. }
  destruct (bin_edges w lo hi) as [|b0 bs] eqn:Hbs.
  { assert (bucket_start w lo ∈ bin_edges w lo hi) as Hin.
    { apply elem_of_bin_edges; [done|]. split; [apply bucket_start_divide|lia]. }
    rewrite Hbs in Hin. by apply elem_of_nil in Hin. }
  assert (∀ b, b ∈ b0 :: bs ↔ (w | b) ∧ bucket_start w lo ≤ b ≤ bucket_start w hi)
    as Hspec.
  { intros b. rewrite <-Hbs. by apply elem_of_bin_edges. }
  assert (foldr Z.min b0 bs = bucket_start w lo) as Hmin.
  { apply foldr_min_unique.
    - apply Hspec. split; [apply bucket_start_divide|lia].
    - intros t Ht%Hspec. lia. }
  assert (foldr Z.max b0 bs = bucket_start w hi) as Hmax.
  { apply foldr_max_unique.
    - apply Hspec. split; [apply bucket_start_divide|lia].
    - intros t Ht%Hspec. lia. }
  unfold resample_width at 1. rewrite Hts', Hmin, Hmax.
  assert (bin_edges w (bucket_start w lo) (bucket_start w hi) = bin_edges w lo hi)
    as ->.
  { unfold bin_edges.
    by rewrite !(bucket_start_fixed w (bucket_start w _)) by
      (done || apply bucket_start_divide). }
  unfold resample_width. rewrite Hts. fold lo hi.
  apply list_fmap_ext. intros i b Hb%list_elem_of_lookup_2. f_equal.
  rewrite (filter_fmap_unique _ _ _ b).
  - apply group_mean_idemp.
  - apply StronglySorted_lt_NoDup. by apply StronglySorted_bin_edges.
  - done.
  - intros b' Hb'. unfold bucket_of. simpl.
    apply elem_of_bin_edges in Hb' as [Hdiv _]; [|done].
    rewrite bucket_start_fixed by done. split; [by intros [= ->]|by intros ->].
Qed.

(** C8: resampling at a rule a frame that was already resampled at that rule,
    with the bucket starts as its timestamps, gives the same frame back (in
    exact arithmetic: the same entries with the same values). *)
Theorem resample_idempotent rule cols rs :
  resample rule cols (resample rule cols rs) = resample rule cols rs.
Proof. apply resample_width_idemp, rule_width_pos. Qed.

(** ** The order of the dataset and the time window *)

Global Instance instant_le_trans : Transitive instant_le.
Proof. intros [x|] [y|] [z|]; simpl; try done. lia. Qed.

Global Instance instant_le_total : Total instant_le.
Proof. intros [x|] [y|]; simpl; try tauto. lia. Qed.

Global Instance row_le_trans : Transitive row_le.
Proof. intros x y z. unfold row_le. apply instant_le_trans. Qed.

Global Instance row_le_total : Total row_le.
Proof. intros x y. unfold row_le. apply instant_le_total. Qed.

Lemma in_window_spec start end_ r :
  in_window start end_ r ↔ ∃ t, timestamp r = Some t ∧ start ≤ t ≤ end_.
Proof.
  unfold in_window. destruct (timestamp r) as [t|].
  - split; [by exists t|]. by intros (? & [= <-] & ?).
  - split; [done|]. by intros (? & [=] & _).
Qed.

(** Between two rows of the window, in the order of the dataset, there are
    only rows of the window. *)
Lemma in_window_convex start end_ x y z :
  row_le x y → row_le y z →
  in_window start end_ x → in_window start end_ z → in_window start end_ y.
Proof.
  unfold row_le, in_window, instant_le.
  destruct (timestamp x), (timestamp y), (timestamp z); try done. lia.
Qed.

(** In a sorted list, the elements kept by a filter on a convex predicate
    form one block. *)
Lemma filter_convex_block {A} (R : relation A) (P : A → Prop)
    `{!∀ x, Decision (P x)} (l : list A) :
  (∀ x y z, R x y → R y z → P x → P z → P y) →
  StronglySorted R l →
  ∃ before after,
    l = before ++ filter P l ++ after ∧
    Forall (λ x, ¬ P x) before ∧ Forall (λ x, ¬ P x) after.
Proof.
  intros Hconvex. induction 1 as [|x l Hsorted IH Hall].
  { exists [], []. by repeat split. }
  destruct IH as (b & a & Hl & Hb & Ha).
  destruct (decide (P x)) as [HPx|HPx].
  - rewrite filter_cons_True by done.
    destruct (filter P l) as [|z f] eqn:Hf.
    + exists [], (b ++ a). simpl in *. split; [by f_equal|].
      split; [done|]. by apply Forall_app.
    + destruct b as [|y b].
      * exists [], a. simpl in *. split; [by f_equal|done].
      * exfalso. apply Forall_cons in Hb as [HPy _]. apply HPy.
        assert (P z) as HPz.
        { assert (z ∈ filter P l) as Hz by (rewrite Hf; left).
          by apply list_elem_of_filter in Hz as [? _]. }
        rewrite Hl in Hall, Hsorted. apply (Hconvex x y z); [|  |done..].
        -- by apply Forall_cons in Hall as [? _].
        -- simpl in Hsorted. apply StronglySorted_inv in Hsorted as [_ Hy].
           rewrite Forall_app, Forall_cons in Hy. tauto.
  - rewrite filter_cons_False by done.
    exists (x :: b), a. split; [simpl; by f_equal|]. split; [by constructor|done].
Qed.

(** C4: on the time-sorted dataset the window filter keeps exactly the rows
    whose timestamp lies in the closed range from [start] to [end_] (both
    bounds included, nothing outside kept); the kept rows are one contiguous
    block of the dataset and are in ascending time order.  The result may be
    empty. *)
Theorem time_filter_exact_contiguous start end_ df :
  StronglySorted row_le df →
  let view := time_filter start end_ df in
  (∀ r, r ∈ view ↔ r ∈ df ∧ ∃ t, timestamp r = Some t ∧ start ≤ t ≤ end_) ∧
  (∃ before after,
     df = before ++ view ++ after ∧
     Forall (λ r, ¬ in_window start end_ r) (before ++ after)) ∧
  StronglySorted row_le view.
Proof.
  intros Hsorted view.
  destruct (filter_convex_block row_le (in_window start end_) df) as
    (b & a & Hdf & Hb & Ha); [apply in_window_convex|done|].
  fold (time_filter start end_ df) in Hdf. fold view in Hdf.
  split; [|split].
  - intros r. unfold view, time_filter.
    rewrite list_elem_of_filter, in_window_spec. tauto.
  - exists b, a. split; [done|]. by apply Forall_app.
  - rewrite Hdf in Hsorted.
    by apply StronglySorted_app_1_r, StronglySorted_app_1_l in Hsorted.
Qed.

Lemma time_filter_exact_contiguous_witness :
  let view := time_filter (15 * minute_ns) (60 * minute_ns) quarter_rows in
  (∀ r, r ∈ view ↔
     r ∈ quarter_rows ∧
     ∃ t, timestamp r = Some t ∧ 15 * minute_ns ≤ t ≤ 60 * minute_ns) ∧
  (∃ before after,
     quarter_rows = before ++ view ++ after ∧
     Forall (λ r, ¬ in_window (15 * minute_ns) (60 * minute_ns) r) (before ++ after)) ∧
  StronglySorted row_le view.
Proof.
  apply (time_filter_exact_contiguous (15 * minute_ns) (60 * minute_ns) quarter_rows).
  compute_done.
Defined.

Example time_filter_quarter_rows :
  time_filter (15 * minute_ns) (60 * minute_ns) quarter_rows =
  [ Row (Some (15 * minute_ns)) {[ "east" := q 20 ]};
    Row (Some (60 * minute_ns)) {[ "east" := q 30; "west" := q 3 ]} ].
Proof. compute_done. Qed.

Example time_filter_may_be_empty :
  time_filter (16 * minute_ns) (59 * minute_ns) quarter_rows = [].
Proof. compute_done. Qed.

(** ** The timestamp column *)

Lemma prefix_true_iff (needle hay : string) :
  String.prefix needle hay = true ↔ ∃ post, hay = (needle +:+ post)%string.
Proof.
  revert hay. induction needle as [|a needle IH]; intros hay.
  - split; [|by destruct hay]. intros _. by exists hay.
  - destruct hay as [|b hay]; simpl.
    + split; [done|]. by intros [post [=]].
    + destruct (ascii_dec a b) as [->|Hne].
      * rewrite IH. split; intros [post Hpost]; exists post.
        -- by rewrite Hpost.
        -- by injection Hpost.
      * split; [done|]. intros [post [= ? _]]. by subst.
Qed.

(** [contains] is the substring test of Python's [in]. *)
Lemma contains_true_iff (needle hay : string) :
  contains needle hay = true ↔
  ∃ pre post, hay = (pre +:+ needle +:+ post)%string.
Proof.
  induction hay as [|b hay IH]; cbn [contains].
  - rewrite orb_false_r, prefix_true_iff. split.
    + intros [post Hpost]. by exists EmptyString, post.
    + intros (pre & post & Hhay). destruct pre; [by exists post|done].
  - rewrite orb_true_iff, prefix_true_iff, IH. split.
    + intros [[post Hpost]|(pre & post & ->)].
      * by exists EmptyString, post.
      * by exists (String b pre), post.
    + intros (pre & post & Hhay). destruct pre as [|a pre].
      * left. by exists post.
      * right. injection Hhay as -> ->. by exists pre, post.
Qed.

Lemma filter_head_first {A} (f : A → bool) (l : list A) c rest :
  List.filter f l = c :: rest → first_with (λ x, f x = true) l c.
Proof.
  induction l as [|x l IH]; simpl; [done|].
  destruct (f x) eqn:Hfx.
  - intros [= -> _]. exists [], l. by repeat split.
  - intros (b & a & -> & Hc & Hb)%IH. exists (x :: b), a.
    repeat split; [done|]. constructor; [congruence|done].
Qed.

Lemma filter_nil_none {A} (f : A → bool) (l : list A) :
  List.filter f l = [] ↔ Forall (λ x, f x = false) l.
Proof.
  induction l as [|x l IH]; simpl; [by split|].
  destruct (f x) eqn:Hfx.
  - split; [done|]. intros [? _]%Forall_cons. congruence.
  - rewrite IH, Forall_cons. tauto.
Qed.

Lemma to_datetime_is_Some t c :
  is_Some (to_datetime (raw_series c (raw_rows t))) ↔ column_parses t c.
Proof. unfold to_datetime, column_parses. apply mapM_is_Some. Qed.

Lemma first_with_iff {A} (P Q : A → Prop) (l : list A) c :
  (∀ x, P x ↔ Q x) → first_with P l c → first_with Q l c.
Proof.
  intros HPQ (b & a & -> & Hc & Hb). exists b, a. repeat split; [by apply HPQ|].
  eapply Forall_impl; [done|]. intros x Hx ?. by apply Hx, HPQ.
Qed.

Lemma StronglySorted_load_data t df cols :
  load_data t = Some (df, cols) → StronglySorted row_le df.
Proof.
  unfold load_data. intros Hload.
  destruct (time_col t) as [c|]; [|done]. simpl in Hload.
  destruct (to_datetime _) as [ts|]; [|done]. simpl in Hload.
  injection Hload as <- _. apply (StronglySorted_merge_sort _).
Qed.

Lemma load_data_parsed_rows t df cols :
  load_data t = Some (df, cols) →
  ∃ c df0, time_col t = Some c ∧ parsed_rows t c df0 ∧ df ≡ₚ df0.
Proof.
  unfold load_data. intros Hload.
  destruct (time_col t) as [c|]; [|done]. simpl in Hload.
  destruct (to_datetime _) as [ts|] eqn:Hts; [|done]. simpl in Hload.
  injection Hload as <- _. eexists c, _. split; [done|].
  split; [|apply merge_sort_Permutation].
  unfold parsed_rows, to_datetime, raw_series in *.
  apply mapM_Some in Hts. revert ts Hts.
  induction (raw_rows t) as [|raw raws IH]; intros ts Hts.
  - inversion Hts. constructor.
  - rewrite fmap_cons in Hts. inversion Hts as [|? i ? ts' Hi Hts']; subst.
    simpl. constructor; [done|]. by apply IH.
Qed.

Lemma first_with_filter_head {A} (f : A → bool) (l : list A) c :
  first_with (λ x, f x = true) l c → ∃ rest, List.filter f l = c :: rest.
Proof.
  intros (b & a & -> & Hc & Hb). rewrite List.filter_app. simpl. rewrite Hc.
  assert (List.filter f b = []) as ->; [|by eexists].
  apply filter_nil_none. eapply Forall_impl; [done|].
  intros x Hx. simpl in Hx. destruct (f x); [by destruct Hx|done].
Qed.

Example time_col_pjm_table : time_col pjm_table = Some "interval_start_local".
Proof. reflexivity. Qed.

Example load_data_pjm_table :
  load_data pjm_table =
  Some ([ Row (Some 10) {[ "east" := q 1 ]}; Row (Some 20) {[ "east" := q 2 ]} ],
        ["east"]).
Proof. compute_done. Qed.

(** C6, as stated, fails: the name test is case-sensitive.  A column named
    "Interval_Start_Local" matches the three substrings only when case is
    ignored; the script passes it over and takes the first column that reads
    as dates. *)
Lemma time_col_is_case_sensitive :
  "Interval_Start_Local" ∈ raw_columns mixed_case_table ∧
  name_matches_nocase "Interval_Start_Local" = true ∧
  time_col mixed_case_table = Some "when" ∧
  name_matches_nocase "when" = false.
Proof. repeat split; compute_done. Qed.

Lemma time_col_by_name t c :
  first_with (λ x, name_matches x = true) (raw_columns t) c → time_col t = Some c.
Proof.
  intros [rest Hc]%first_with_filter_head.
  unfold time_col, time_col_candidates. by rewrite Hc.
Qed.

Lemma time_col_by_parse t c :
  Forall (λ x, name_matches x = false) (raw_columns t) →
  first_with (column_parses t) (raw_columns t) c → time_col t = Some c.
Proof.
  intros Hnone%filter_nil_none Hc.
  unfold time_col, time_col_candidates. rewrite Hnone.
  apply (first_with_iff _
           (λ x, bool_decide (is_Some (to_datetime (raw_series x (raw_rows t)))) = true))
    in Hc.
  - apply first_with_filter_head in Hc as [rest ->]. done.
  - intros x. by rewrite bool_decide_eq_true, to_datetime_is_Some.
Qed.

Lemma time_col_fallback t :
  Forall (λ x, name_matches x = false) (raw_columns t) →
  Forall (λ x, ¬ column_parses t x) (raw_columns t) →
  time_col t = head (raw_columns t).
Proof.
  intros Hnone%filter_nil_none Hnoparse.
  unfold time_col, time_col_candidates. rewrite Hnone.
  assert (List.filter
            (λ c, bool_decide (is_Some (to_datetime (raw_series c (raw_rows t)))))
            (raw_columns t) = []) as ->; [|done].
  apply filter_nil_none. eapply Forall_impl; [done|]. intros x Hx. simpl in Hx.
  apply bool_decide_eq_false. by rewrite to_datetime_is_Some.
Qed.

(** X1: under the last fallback the parse of line 29 raises: no column reads as
    dates, so the first one does not either. *)
Lemma load_data_fallback_raises t :
  Forall (λ x, name_matches x = false) (raw_columns t) →
  Forall (λ x, ¬ column_parses t x) (raw_columns t) →
  load_data t = None.
Proof.
  intros Hnone Hnoparse.
  unfold load_data. rewrite time_col_fallback by done.
  destruct (raw_columns t) as [|c cols]; [done|]. simpl.
  apply Forall_cons in Hnoparse as [Hc _].
  rewrite <-to_datetime_is_Some in Hc.
  destruct (to_datetime _); [|done]. by destruct Hc.
Qed.

(** C6, amended: the timestamp column is (1) the first column, in column
    order, whose name contains "interval", "start" and "local" as
    substrings, compared case-sensitively; (2) when no name matches, the
    first column all of whose values read as a date/time; (3) when there is
    none either, the first column.  Whenever the load succeeds, its rows are
    the rows of the sheet with that column read as timestamp, sorted
    ascending by it (rows without timestamp last). *)
Theorem time_col_priority t :
  (∀ c, first_with (λ x, name_matches x = true) (raw_columns t) c →
        time_col t = Some c) ∧
  (Forall (λ x, name_matches x = false) (raw_columns t) →
   ∀ c, first_with (column_parses t) (raw_columns t) c → time_col t = Some c) ∧
  (Forall (λ x, name_matches x = false) (raw_columns t) →
   Forall (λ x, ¬ column_parses t x) (raw_columns t) →
   time_col t = head (raw_columns t)) ∧
  (∀ df cols, load_data t = Some (df, cols) →
     StronglySorted row_le df ∧
     ∃ c df0, time_col t = Some c ∧ parsed_rows t c df0 ∧ df ≡ₚ df0).
Proof.
  split; [|split; [|split]].
  - apply time_col_by_name.
  - intros Hnone c. by apply time_col_by_parse.
  - apply time_col_fallback.
  - intros df cols Hload. split.
    + by eapply StronglySorted_load_data.
    + by eapply load_data_parsed_rows.
Qed.

(** ** The KPI target *)

Lemma dropna_fmap {A} (f : A → value) (l : list A) : dropna (f <$> l) = omap f l.
Proof.
  unfold dropna. induction l as [|x l IH]; [done|]. csimpl.
  rewrite IH. by destruct (f x).
Qed.

Lemma row_sum_present cols r :
  row_sum cols r = Some (Qc_sum (omap (λ z, zones r !! z) cols)).
Proof. unfold row_sum, nansum. by rewrite dropna_fmap. Qed.

Lemma sum_axis1_elementwise cols rs :
  Forall2 (λ r v, v = Some (Qc_sum (omap (λ z, zones r !! z) cols)))
    rs (sum_axis1 cols rs).
Proof.
  unfold sum_axis1. induction rs as [|r rs IH]; csimpl; constructor; [|done].
  apply row_sum_present.
Qed.

Example series_for_kpis_total_frame :
  series_for_kpis ["pjm_rto"; "east"; "west"] ["east"] total_frame =
  [Some (q 30); Some (q 50)].
Proof. compute_done. Qed.

Example series_for_kpis_regional_selected :
  series_for_kpis ["east"; "west"] ["west"] regional_frame =
  [Some (q 20); Some (q 0)].
Proof. compute_done. Qed.

Example series_for_kpis_regional_unselected :
  series_for_kpis ["east"; "west"] [] regional_frame =
  [Some (q 30); Some (q 15)].
Proof. compute_done. Qed.

(** C2: the KPI target is (1) the column "pjm_rto" whenever the view has
    it, whatever is selected; (2) otherwise, when the selection is not
    empty, row by row the sum of the selected zones' present values; (3)
    otherwise, row by row the sum of all zones' present values.  With the
    zones pjm_rto (the total), east and west and the selection east, the
    target is the total zone. *)
Theorem series_for_kpis_priority numeric_cols sel view :
  ("pjm_rto" ∈ columns view →
     series_for_kpis numeric_cols sel view = series "pjm_rto" (rows view)) ∧
  ("pjm_rto" ∉ columns view → sel ≠ [] →
     Forall2 (λ r v, v = Some (Qc_sum (omap (λ z, zones r !! z) sel)))
       (rows view) (series_for_kpis numeric_cols sel view)) ∧
  ("pjm_rto" ∉ columns view → sel = [] →
     Forall2 (λ r v, v = Some (Qc_sum (omap (λ z, zones r !! z) numeric_cols)))
       (rows view) (series_for_kpis numeric_cols sel view)) ∧
  (∀ rs, series_for_kpis ["pjm_rto"; "east"; "west"] ["east"]
           (Frame ["pjm_rto"; "east"; "west"] rs) = series "pjm_rto" rs).
Proof.
  unfold series_for_kpis. repeat split.
  - intros Hin. by rewrite decide_True.
  - intros Hnotin Hsel. rewrite decide_False by done.
    destruct sel; [done|]. apply sum_axis1_elementwise.
  - intros Hnotin ->. rewrite decide_False by done. apply sum_axis1_elementwise.
Qed.

(** ** The KPI cards *)

Lemma nonzero_true v : nonzero v = true ↔ v ≠ Some 0%Qc.
Proof.
  destruct v as [x|]; simpl; [|done].
  rewrite negb_true_iff, bool_decide_eq_false. naive_solver.
Qed.

Example kpi_cards_total :
  kpi_cards [Some (q 30); None; Some (q 50); Some (q 45)] =
  Some (KPIs (Some (q 50)) (Some (q 30)) (Some (Qc_of_Z 125 / Qc_of_Z 3)%Qc)
          (Some (q 50))).
Proof. compute_done. Qed.

Example kpi_cards_negative_start :
  percentChange <$> kpi_cards [Some (q (-20)); Some (q 10)] = Some (Some (q 150)).
Proof. compute_done. Qed.

Example kpi_cards_single_point :
  kpi_cards [Some (q 30)] = Some (KPIs (Some (q 30)) (Some (q 30)) (Some (q 30)) None).
Proof. compute_done. Qed.

Example kpi_cards_zero_start :
  percentChange <$> kpi_cards [Some (q 0); Some (q 10)] = Some None.
Proof. compute_done. Qed.

(** C5: an empty target gives no KPI set at all.  A non-empty target always
    gives one, and its percent change is [(last - first) / |first| * 100]
    when the target has at least two points and its first value is not zero,
    and the NaN marker when it has a single point or its first value is
    zero. *)
Theorem percent_change_cases :
  kpi_cards [] = None ∧
  ∀ first rest,
    let target := first :: rest in
    ∃ k lst,
      kpi_cards target = Some k ∧ last target = Some lst ∧
      ((2 ≤ length target)%nat → first ≠ Some 0%Qc →
         percentChange k = pct_formula first lst) ∧
      (∀ f l, (2 ≤ length target)%nat → first = Some f → lst = Some l → f ≠ 0%Qc →
         percentChange k = Some ((l - f) / Qcabs f * Qc_of_Z 100)%Qc) ∧
      ((length target < 2)%nat ∨ first = Some 0%Qc → percentChange k = None).
Proof.
  split; [done|]. intros first rest target.
  destruct (last target) as [lst|] eqn:Hlast.
  2: { apply last_None in Hlast. done. }
  exists (KPIs (nanmax target) (nanmin target) (nanmean target) (pct target)), lst.
  assert (pct target =
          if bool_decide (2 ≤ length target)%nat && nonzero first
          then pct_formula first lst else None) as Hpct.
  { unfold pct, target in *. by rewrite Hlast. }
  split; [done|]. split; [done|]. cbn [percentChange]. rewrite Hpct.
  split; [|split].
  - intros Hlen Hfirst%nonzero_true. by rewrite bool_decide_eq_true_2, Hfirst.
  - intros f l Hlen -> -> Hf.
    rewrite bool_decide_eq_true_2 by done.
    assert (nonzero (Some f) = true) as ->; [|done].
    apply nonzero_true. congruence.
  - intros [Hlen| ->].
    + rewrite bool_decide_eq_false_2; [done|lia].
    + by rewrite andb_false_r.
Qed.

(** ** KPI target against chart target *)

Lemma row_sum_single r z : is_Some (zones r !! z) → row_sum [z] r = zones r !! z.
Proof.
  intros [v Hv]. rewrite row_sum_present. simpl. rewrite Hv. simpl.
  f_equal. unfold Qc_sum. simpl. apply Qcplus_0_r.
Qed.

Example ycol_regional : ycol ["east"; "west"] ["west"; "east"] regional_frame = Some "west".
Proof. reflexivity. Qed.

Example ycol_no_zone : ycol [] [] (Frame [] []) = None.
Proof. reflexivity. Qed.

(** C7, as stated, fails: without the total zone and with two zones
    selected, the KPI target is the sum of both while the charts plot the
    first selected zone alone. *)
Lemma kpi_and_chart_targets_differ_on_selection :
  ("pjm_rto" ∉ columns regional_frame) ∧
  series_for_kpis ["east"; "west"] ["east"; "west"] regional_frame =
    [Some (q 30); Some (q 15)] ∧
  group_target ["east"; "west"] ["east"; "west"] regional_frame =
    Some [Some (q 10); Some (q 15)] ∧
  group_target ["east"; "west"] ["east"; "west"] regional_frame ≠
    Some (series_for_kpis ["east"; "west"] ["east"; "west"] regional_frame).
Proof. repeat split; compute_done. Qed.

(** C7, amended: the two policies agree at priority 1, where both take the
    column "pjm_rto".  At priority 2 the KPI target is the row-wise sum of
    all selected zones while the charts take the first selected zone; the
    two coincide when a single zone is selected and none of its values is
    missing.  At priority 3 the KPI target is the row-wise sum of all zones
    while the charts take the first zone of the dataset. *)
Theorem kpi_and_chart_targets numeric_cols sel f :
  ("pjm_rto" ∈ columns f →
     group_target numeric_cols sel f = Some (series_for_kpis numeric_cols sel f)) ∧
  ("pjm_rto" ∉ columns f → ∀ z zs, sel = z :: zs →
     series_for_kpis numeric_cols sel f = sum_axis1 (z :: zs) (rows f) ∧
     group_target numeric_cols sel f = Some (series z (rows f)) ∧
     (zs = [] → Forall (λ r, is_Some (zones r !! z)) (rows f) →
        group_target numeric_cols sel f = Some (series_for_kpis numeric_cols sel f))) ∧
  ("pjm_rto" ∉ columns f → sel = [] →
     series_for_kpis numeric_cols sel f = sum_axis1 numeric_cols (rows f) ∧
     group_target numeric_cols sel f = (λ z, series z (rows f)) <$> head numeric_cols).
Proof.
  unfold group_target, ycol, series_for_kpis. split; [|split].
  - intros Hin. by rewrite !decide_True.
  - intros Hnotin z zs ->. rewrite !decide_False by done. simpl.
    split; [done|]. split; [done|]. intros -> Hall. f_equal.
    unfold series, sum_axis1. apply Forall_fmap_ext.
    eapply Forall_impl; [done|]. intros r Hr. simpl. by rewrite row_sum_single.
  - intros Hnotin ->. rewrite !decide_False by done. split; [done|].
    by destruct (head numeric_cols).
Qed.

(** ** All-missing rows in the KPI target *)

Lemma row_sum_all_missing cols r :
  (∀ z, z ∈ cols → zones r !! z = None) → row_sum cols r = Some 0%Qc.
Proof.
  intros Hmiss. rewrite row_sum_present. f_equal.
  induction cols as [|c cols IH]; [done|]. csimpl.
  rewrite (Hmiss c) by left. simpl. apply IH. intros z Hz. apply Hmiss. by right.
Qed.

Example run_gap_view :
  rows (out_view (run gap_rows ["east"] gap_config)) =
  [ Row (Some 0) {[ "east" := q 5 ]};
    Row (Some hour_ns) ∅;
    Row (Some (2 * hour_ns)) {[ "east" := q 7 ]} ].
Proof. compute_done. Qed.

Example run_gap_kpis :
  out_kpis (run gap_rows ["east"] gap_config) =
  Some (KPIs (Some (q 7)) (Some (q 0)) (Some (q 4)) (Some (q 40))).
Proof. compute_done. Qed.

(** C9: without the column "pjm_rto" and with a non-empty selection, the
    KPI target is 0, not missing, on every row where all selected zones are
    missing; and there is an input whose present values are all positive, a
    window with an empty hourly bucket, for which the trough of the KPI
    cards is 0. *)
Theorem kpi_target_zero_on_missing_row :
  (∀ numeric_cols sel view i r,
     "pjm_rto" ∉ columns view → sel ≠ [] →
     rows view !! i = Some r → (∀ z, z ∈ sel → zones r !! z = None) →
     series_for_kpis numeric_cols sel view !! i = Some (Some 0%Qc)) ∧
  (∃ df numeric_cols cfg,
     ("pjm_rto" ∉ numeric_cols) ∧ selected_zones cfg ≠ [] ∧
     Forall (λ r, map_Forall (λ _ v, (0 < v)%Qc) (zones r)) df ∧
     (∃ e, e ∈ rows (out_view (run df numeric_cols cfg)) ∧ zones e = ∅) ∧
     trough <$> out_kpis (run df numeric_cols cfg) = Some (Some 0%Qc)).
Proof.
  split.
  - intros numeric_cols sel view i r Hnotin Hsel Hr Hmiss.
    unfold series_for_kpis. rewrite decide_False by done.
    destruct sel as [|z zs]; [done|].
    unfold sum_axis1. rewrite list_lookup_fmap, Hr. simpl. f_equal.
    by apply row_sum_all_missing.
  - exists gap_rows, ["east"], gap_config. split; [compute_done|].
    split; [done|]. split; [compute_done|]. split; [|compute_done].
    exists (Row (Some hour_ns) ∅). split; [compute_done|done].
Qed.

(** ** The zone ranking *)

Global Instance rank_ge_trans : Transitive rank_ge.
Proof.
  intros [? [x|]] [? [y|]] [? [z|]]; unfold rank_ge; simpl; try done.
  intros ??. by etrans.
Qed.

Global Instance rank_ge_total : Total rank_ge.
Proof.
  intros [? [x|]] [? [y|]]; unfold rank_ge; simpl; try tauto.
  destruct (Qc_le_total x y); tauto.
Qed.

Lemma zone_means_spec numeric_cols view :
  (zone_means numeric_cols view).*1 ≡ₚ numeric_cols ∧
  StronglySorted rank_ge (zone_means numeric_cols view) ∧
  ∀ z v, (z, v) ∈ zone_means numeric_cols view →
         z ∈ numeric_cols ∧ v = nanmean (series z (rows view)).
Proof.
  unfold zone_means. split; [|split].
  - rewrite merge_sort_Permutation, <-list_fmap_compose.
    by rewrite (list_fmap_ext _ id numeric_cols), list_fmap_id.
  - apply (StronglySorted_merge_sort _).
  - intros z v. rewrite merge_sort_Permutation, list_elem_of_fmap.
    intros (c & [= -> ->] & Hc). done.
Qed.

Example zone_means_regional :
  zone_means ["east"; "west"; "north"] regional_frame =
  [ ("west", Some (q 20)); ("east", Some (Qc_of_Z 25 / Qc_of_Z 2)%Qc); ("north", None) ].
Proof. compute_done. Qed.

(** C10: two runs on the same dataset, window and resample rule that differ
    only in the selected zones hand out the same ranked list; the list has
    one entry for every zone of the dataset, each with the mean of that
    zone's present values over the resampled view, in descending order of
    the means (zones without any value last). *)
Theorem zone_ranking_ignores_selection df numeric_cols cfg1 cfg2 :
  start cfg1 = start cfg2 → end_ cfg1 = end_ cfg2 →
  resample_rule cfg1 = resample_rule cfg2 →
  let ranked := out_zone_means (run df numeric_cols cfg1) in
  ranked = out_zone_means (run df numeric_cols cfg2) ∧
  ranked.*1 ≡ₚ numeric_cols ∧
  StronglySorted rank_ge ranked ∧
  ∀ z v, (z, v) ∈ ranked →
         v = nanmean (series z (rows (out_view (run df numeric_cols cfg1)))).
Proof.
  intros Hstart Hend Hrule ranked. subst ranked. unfold run. simpl.
  rewrite Hstart, Hend, Hrule. split; [done|].
  destruct (zone_means_spec numeric_cols
              (Frame numeric_cols
                 (resample (resample_rule cfg2) numeric_cols
                    (time_filter (start cfg2) (end_ cfg2) df)))) as (Hperm & Hsorted & Hmean).
  split; [done|]. split; [done|]. intros z v Hzv. by apply Hmean.
Qed.

Lemma zone_ranking_ignores_selection_witness :
  let ranked :=
    out_zone_means (run quarter_rows ["east"; "west"]
                      (Config 0 hour_ns ["east"] R30T)) in
  ranked = out_zone_means (run quarter_rows ["east"; "west"]
                             (Config 0 hour_ns ["west"; "east"] R30T)) ∧
  ranked.*1 ≡ₚ ["east"; "west"] ∧
  StronglySorted rank_ge ranked ∧
  ∀ z v, (z, v) ∈ ranked →
         v = nanmean (series z (rows (out_view
               (run quarter_rows ["east"; "west"] (Config 0 hour_ns ["east"] R30T))))).
Proof.
  apply (zone_ranking_ignores_selection quarter_rows ["east"; "west"]
           (Config 0 hour_ns ["east"] R30T) (Config 0 hour_ns ["west"; "east"] R30T));
    reflexivity.
Defined.

(** * Further properties of the script *)

(** ** Loading *)

Lemma load_data_fallback_raises_witness : load_data text_table = None.
Proof.
  apply (load_data_fallback_raises text_table).
  - compute_done.
  - unfold column_parses. compute_done.
Defined.

(** X2: a column of the expected name is taken even when its values do not read
    as dates; the parse of line 29 then raises, although another column
    would have parsed. *)
Lemma load_data_named_column_raises t c :
  first_with (λ x, name_matches x = true) (raw_columns t) c →
  ¬ column_parses t c →
  load_data t = None.
Proof.
  intros Hc%time_col_by_name Hparse. unfold load_data. rewrite Hc. simpl.
  rewrite <-to_datetime_is_Some in Hparse.
  destruct (to_datetime _); [|done]. by destruct Hparse.
Qed.

Lemma load_data_named_column_raises_witness :
  load_data bad_name_table = None ∧ column_parses bad_name_table "when".
Proof.
  split.
  - apply (load_data_named_column_raises bad_name_table "interval_start_local").
    + exists ["when"], []. split; [done|]. split; [done|].
      constructor; [done|constructor].
    + unfold column_parses. compute_done.
  - unfold column_parses. compute_done.
Defined.

Lemma Exists_first_with {A} (P : A → Prop) `{!∀ x, Decision (P x)} (l : list A) :
  Exists P l → ∃ c, first_with P l c.
Proof.
  induction l as [|x l IH]; [by intros ?%Exists_nil|].
  intros Hex. destruct (decide (P x)) as [HPx|HPx].
  - exists x, [], l. by repeat split.
  - apply Exists_cons in Hex as [?|Hex]; [done|].
    destruct (IH Hex) as (c & b & a & -> & Hc & Hb).
    exists c, (x :: b), a. repeat split; [done|]. by constructor.
Qed.

(** X3: when no column has the expected name, the load succeeds as soon as one
    column reads as dates. *)
Lemma load_data_succeeds_by_parse t :
  Forall (λ x, name_matches x = false) (raw_columns t) →
  Exists (column_parses t) (raw_columns t) →
  ∃ c df cols,
    first_with (column_parses t) (raw_columns t) c ∧
    time_col t = Some c ∧ load_data t = Some (df, cols).
Proof.
  intros Hnone Hex.
  destruct (Exists_first_with (column_parses t) (raw_columns t) Hex) as [c Hc].
  pose proof (time_col_by_parse t c Hnone Hc) as Htc.
  destruct Hc as (b & a & Hcols & Hparse & Hb).
  pose proof Hparse as [ts Hts]%to_datetime_is_Some.
  exists c, (merge_sort row_le
               (zip_with (λ i r, Row i (numeric_part (select_numeric t) r))
                  ts (raw_rows t))), (select_numeric t).
  split; [by exists b, a|]. split; [done|].
  unfold load_data. rewrite Htc. simpl. by rewrite Hts.
Qed.

Lemma load_data_succeeds_by_parse_witness :
  ∃ c df cols,
    first_with (column_parses dated_table) (raw_columns dated_table) c ∧
    time_col dated_table = Some c ∧ load_data dated_table = Some (df, cols).
Proof.
  apply (load_data_succeeds_by_parse dated_table); compute_done.
Defined.

Lemma numeric_part_lookup cols raw c :
  numeric_part cols raw !! c =
  if decide (c ∈ cols) then raw !! c ≫= cell_value else None.
Proof.
  unfold numeric_part. induction cols as [|c' cols IH]; csimpl; [done|].
  destruct (decide (c = c')) as [->|Hne].
  - rewrite decide_True by left.
    destruct (raw !! c' ≫= cell_value) as [v|] eqn:Hv; csimpl.
    + by rewrite lookup_insert_eq.
    + rewrite IH. by case_decide.
  - destruct (raw !! c' ≫= cell_value) as [v|]; csimpl.
    + rewrite lookup_insert_ne by done. rewrite IH.
      apply decide_ext. rewrite elem_of_cons. tauto.
    + rewrite IH. apply decide_ext. rewrite elem_of_cons. tauto.
Qed.

Lemma select_numeric_spec t c :
  c ∈ select_numeric t ↔
  c ∈ raw_columns t ∧ c ≠ "timestamp" ∧
  Forall (λ x, cell_is_number x = true) (raw_series c (raw_rows t)).
Proof.
  unfold select_numeric. rewrite list_elem_of_In, List.filter_In, <-list_elem_of_In.
  rewrite andb_true_iff, negb_true_iff, String.eqb_neq, forallb_forall.
  rewrite Forall_forall. setoid_rewrite list_elem_of_In. tauto.
Qed.

(** X4: what a successful load hands out: as many rows as the sheet has; zone
    names that are columns of the sheet, in sheet order, none of them named
    "timestamp"; and in every row only values of these zones, each one a
    number that stands in the sheet in that column. *)
Lemma load_data_invariants t df cols :
  load_data t = Some (df, cols) →
  length df = length (raw_rows t) ∧
  cols `sublist_of` raw_columns t ∧
  ("timestamp" ∉ cols) ∧
  ∀ r z v, r ∈ df → zones r !! z = Some v →
    z ∈ cols ∧ ∃ raw, raw ∈ raw_rows t ∧ raw !! z = Some (CNum v).
Proof.
  intros Hload.
  assert (cols = select_numeric t) as ->.
  { unfold load_data in Hload.
    destruct (time_col t); [|done]. simpl in Hload.
    destruct (to_datetime _); [|done]. by injection Hload. }
  destruct (load_data_parsed_rows _ _ _ Hload) as (c & df0 & _ & Hrows & Hperm).
  split; [|split; [|split]].
  - rewrite Hperm. symmetry. by eapply Forall2_length.
  - unfold select_numeric. induction (raw_columns t) as [|x l IH]; simpl; [done|].
    destruct (_ && _); [by constructor|by constructor].
  - intros Hin%select_numeric_spec. by destruct Hin as (_ & ? & _).
  - intros r z v Hr Hz. rewrite Hperm in Hr.
    apply list_elem_of_lookup in Hr as [i Hi].
    destruct (Forall2_lookup_r _ _ _ _ _ Hrows Hi) as (raw & Hraw & _ & Hzones).
    rewrite Hzones, numeric_part_lookup in Hz.
    case_decide; [|done]. split; [done|]. exists raw.
    split; [by eapply list_elem_of_lookup_2|].
    destruct (raw !! z) as [[]|]; by simplify_eq/=.
Qed.

Lemma load_data_invariants_witness :
  length [ Row (Some 10) {[ "east" := q 1 ]}; Row (Some 20) {[ "east" := q 2 ]} ] =
    length (raw_rows pjm_table) ∧
  ["east"] `sublist_of` raw_columns pjm_table ∧
  ("timestamp" ∉ ["east"]) ∧
  ∀ r z v,
    r ∈ [ Row (Some 10) {[ "east" := q 1 ]}; Row (Some 20) {[ "east" := q 2 ]} ] →
    zones r !! z = Some v →
    z ∈ ["east"] ∧ ∃ raw, raw ∈ raw_rows pjm_table ∧ raw !! z = Some (CNum v).
Proof. apply (load_data_invariants pjm_table). compute_done. Defined.

(** ** The sidebar defaults *)

Lemma NoDup_preset_zones : NoDup preset_zones.
Proof. compute_done. Qed.

(** X5: the default of the zone multiselect is always a valid choice: it only
    names zones of the dataset, at most five of them, it is not empty unless
    the dataset has no zone, it does not repeat a zone when the dataset does
    not, and it includes the total zone whenever the dataset has it. *)
Lemma default_selection_valid numeric_cols :
  default_selection numeric_cols ⊆ numeric_cols ∧
  (length (default_selection numeric_cols) ≤ 5)%nat ∧
  (numeric_cols ≠ [] → default_selection numeric_cols ≠ []) ∧
  (NoDup numeric_cols → NoDup (default_selection numeric_cols)) ∧
  ("pjm_rto" ∈ numeric_cols → "pjm_rto" ∈ default_selection numeric_cols).
Proof.
  unfold default_selection.
  destruct (default_zones numeric_cols) as [|z dz] eqn:Hdz.
  - split; [|split; [|split; [|split]]].
    + intros c (i & Hi & _)%elem_of_take. by eapply list_elem_of_lookup_2.
    + rewrite length_take. lia.
    + by destruct numeric_cols.
    + intros Hnd. by eapply sublist_NoDup; [|apply sublist_take].
    + intros Hin. assert ("pjm_rto" ∈ default_zones numeric_cols) as Hin'.
      { unfold default_zones. apply list_elem_of_filter.
        split; [done|]. unfold preset_zones. left. }
      rewrite Hdz in Hin'. by apply elem_of_nil in Hin'.
  - rewrite <-Hdz. unfold default_zones. split; [|split; [|split; [|split]]].
    + intros c Hc. by apply list_elem_of_filter in Hc as [? _].
    + pose proof (length_filter (λ c, c ∈ numeric_cols) preset_zones) as Hlen.
      unfold preset_zones in Hlen at 2. simpl in Hlen. done.
    + intros _. fold (default_zones numeric_cols). by rewrite Hdz.
    + intros _. apply NoDup_filter, NoDup_preset_zones.
    + intros Hin. apply list_elem_of_filter. split; [done|].
      unfold preset_zones. left.
Qed.

(** ** The window *)






(** X7: a window whose end lies before its start keeps nothing. *)
Lemma time_filter_reversed_window start end_ df :
  end_ < start → time_filter start end_ df = [].
Proof.
  intros Hlt. apply filter_none, Forall_forall. intros r _.
  unfold in_window. destruct (timestamp r); [lia|tauto].
Qed.

Lemma time_filter_reversed_window_witness :
  time_filter hour_ns 0 quarter_rows = [].
Proof. apply (time_filter_reversed_window hour_ns 0 quarter_rows). reflexivity. Defined.

(** X8: narrowing a window in two steps is the same as filtering once with the
    intersection of the two windows. *)
Lemma time_filter_nested s1 e1 s2 e2 df :
  time_filter s2 e2 (time_filter s1 e1 df) =
  time_filter (Z.max s1 s2) (Z.min e1 e2) df.
Proof.
  unfold time_filter. rewrite list_filter_filter. apply list_filter_iff.
  intros r. unfold in_window. destruct (timestamp r); simpl; [lia|tauto].
Qed.

(** The rows of a window all have a timestamp. *)
Lemma time_filter_timestamps start end_ df :
  timestamp <$> time_filter start end_ df =
  Some <$> omap timestamp (time_filter start end_ df).
Proof.
  unfold time_filter. induction df as [|r df IH]; [done|].
  rewrite filter_cons. case_decide as Hr; [|done]. csimpl.
  unfold in_window in Hr. destruct (timestamp r) as [t|]; [|done].
  simpl. by rewrite IH.
Qed.

(** ** Means lie between the extremes *)

Lemma foldr_Qc_min_spec x xs :
  foldr Qc_min x xs ∈ x :: xs ∧ ∀ y, y ∈ x :: xs → (foldr Qc_min x xs ≤ y)%Qc.
Proof.
  induction xs as [|z xs [IHin IHle]]; simpl.
  - split; [left|]. by intros y ->%list_elem_of_singleton.
  - unfold Qc_min at 1 3. case_decide as Hz.
    + split; [right; left|].
      intros y [->|[->|Hy]%elem_of_cons]%elem_of_cons.
      * etrans; [done|]. apply IHle. left.
      * done.
      * etrans; [done|]. apply IHle. by right.
    + apply Qclt_nge, Qclt_le_weak in Hz. split.
      * apply elem_of_cons in IHin as [->|?]; [left|by do 2 right].
      * intros y [->|[->|Hy]%elem_of_cons]%elem_of_cons.
        -- apply IHle. left.
        -- done.
        -- apply IHle. by right.
Qed.

Lemma foldr_Qc_max_spec x xs :
  foldr Qc_max x xs ∈ x :: xs ∧ ∀ y, y ∈ x :: xs → (y ≤ foldr Qc_max x xs)%Qc.
Proof.
  induction xs as [|z xs [IHin IHle]]; simpl.
  - split; [left|]. by intros y ->%list_elem_of_singleton.
  - unfold Qc_max at 1 3. case_decide as Hz.
    + split.
      * apply elem_of_cons in IHin as [->|?]; [left|by do 2 right].
      * intros y [->|[->|Hy]%elem_of_cons]%elem_of_cons.
        -- apply IHle. left.
        -- done.
        -- apply IHle. by right.
    + apply Qclt_nge, Qclt_le_weak in Hz. split; [right; left|].
      intros y [->|[->|Hy]%elem_of_cons]%elem_of_cons.
      * etrans; [|done]. apply IHle. left.
      * done.
      * etrans; [|done]. apply IHle. by right.
Qed.






(** ** The KPI scalars *)

Lemma elem_of_dropna (s : list value) v : v ∈ dropna s ↔ Some v ∈ s.
Proof.
  unfold dropna. rewrite list_elem_of_omap. split.
  - intros (x & Hx & Hv). simpl in Hv. by subst.
  - intros ?. by exists (Some v).
Qed.

Lemma dropna_nil (s : list value) : dropna s = [] ↔ Forall (λ v, v = None) s.
Proof.
  unfold dropna. induction s as [|[v|] s IH]; csimpl.
  - by split.
  - split; [done|]. by intros [[=] _]%Forall_cons.
  - rewrite IH, Forall_cons. tauto.
Qed.

Lemma nanmax_Some s b :
  nanmax s = Some b ↔ Some b ∈ s ∧ ∀ v, Some v ∈ s → (v ≤ b)%Qc.
Proof.
  unfold nanmax. setoid_rewrite <-elem_of_dropna.
  destruct (dropna s) as [|x xs].
  - split; [done|]. by intros [?%elem_of_nil _].
  - destruct (foldr_Qc_max_spec x xs) as [Hin Hle]. split.
    + by intros [= <-].
    + intros [Hb Hmax]. f_equal. apply (anti_symm Qcle); auto.
Qed.

Lemma nanmin_Some s a :
  nanmin s = Some a ↔ Some a ∈ s ∧ ∀ v, Some v ∈ s → (a ≤ v)%Qc.
Proof.
  unfold nanmin. setoid_rewrite <-elem_of_dropna.
  destruct (dropna s) as [|x xs].
  - split; [done|]. by intros [?%elem_of_nil _].
  - destruct (foldr_Qc_min_spec x xs) as [Hin Hle]. split.
    + by intros [= <-].
    + intros [Ha Hmin]. f_equal. apply (anti_symm Qcle); auto.
Qed.

(** X10: the peak card shows a value of the target that no value of the target
    exceeds, and the trough card one that none falls below; missing values
    play no part. *)
Lemma kpi_peak_trough_attained target k :
  kpi_cards target = Some k →
  (∀ b, peak k = Some b ↔ Some b ∈ target ∧ ∀ v, Some v ∈ target → (v ≤ b)%Qc) ∧
  (∀ a, trough k = Some a ↔ Some a ∈ target ∧ ∀ v, Some v ∈ target → (a ≤ v)%Qc).
Proof.
  unfold kpi_cards. destruct target as [|v0 target]; [done|]. intros [= <-].
  split; intros x; [apply nanmax_Some|apply nanmin_Some].
Qed.

Lemma kpi_peak_trough_attained_witness :
  (∀ b, Some (q 50) = Some b ↔
        Some b ∈ [Some (q 30); None; Some (q 50); Some (q 45)] ∧
        ∀ v, Some v ∈ [Some (q 30); None; Some (q 50); Some (q 45)] → (v ≤ b)%Qc) ∧
  (∀ a, Some (q 30) = Some a ↔
        Some a ∈ [Some (q 30); None; Some (q 50); Some (q 45)] ∧
        ∀ v, Some v ∈ [Some (q 30); None; Some (q 50); Some (q 45)] → (a ≤ v)%Qc).
Proof.
  apply (kpi_peak_trough_attained [Some (q 30); None; Some (q 50); Some (q 45)]
           (KPIs (Some (q 50)) (Some (q 30)) (Some (Qc_of_Z 125 / Qc_of_Z 3)%Qc)
              (Some (q 50)))).
  compute_done.
Defined.



(** X12: peak, trough and average are NaN together, exactly when every value of
    the target is missing. *)
Lemma kpi_nan_together target k :
  kpi_cards target = Some k →
  (peak k = None ↔ Forall (λ v, v = None) target) ∧
  (trough k = None ↔ Forall (λ v, v = None) target) ∧
  (average k = None ↔ Forall (λ v, v = None) target).
Proof.
  unfold kpi_cards. destruct target as [|v0 target]; [done|]. intros [= <-].
  cbn [trough average peak]. unfold nanmax, nanmin, nanmean.
  rewrite <-dropna_nil. destruct (dropna (v0 :: target)); by repeat split.
Qed.

Lemma kpi_nan_together_witness :
  ((None : value) = None ↔ Forall (λ v : value, v = None) [None; None]) ∧
  ((None : value) = None ↔ Forall (λ v : value, v = None) [None; None]) ∧
  ((None : value) = None ↔ Forall (λ v : value, v = None) [None; None]).
Proof.
  apply (kpi_nan_together [None; None] (KPIs None None None None)). reflexivity.
Defined.

Lemma length_series_for_kpis numeric_cols sel view :
  length (series_for_kpis numeric_cols sel view) = length (rows view).
Proof.
  unfold series_for_kpis, series, sum_axis1.
  case_decide; [|destruct sel]; by rewrite length_fmap.
Qed.

Lemma sum_target_is_Some numeric_cols sel view :
  "pjm_rto" ∉ columns view →
  Forall (λ v, is_Some v) (series_for_kpis numeric_cols sel view).
Proof.
  intros Hnotin. unfold series_for_kpis. rewrite decide_False by done.
  destruct sel; unfold sum_axis1; apply Forall_fmap, Forall_forall;
    intros r _; by eexists.
Qed.

(** X13: without the column "pjm_rto" the KPI target is a sum in every row and
    so never holds a missing value; whenever the cards are rendered, peak,
    trough and average are then numbers. *)
Lemma sum_target_has_no_nan numeric_cols sel view :
  "pjm_rto" ∉ columns view →
  Forall (λ v, is_Some v) (series_for_kpis numeric_cols sel view) ∧
  ∀ k, kpi_cards (series_for_kpis numeric_cols sel view) = Some k →
       is_Some (peak k) ∧ is_Some (trough k) ∧ is_Some (average k).
Proof.
  intros Hall%(sum_target_is_Some numeric_cols sel). split; [done|].
  intros k. unfold kpi_cards.
  destruct (series_for_kpis numeric_cols sel view) as [|v0 target]; [done|].
  intros [= <-]. cbn [peak trough average]. unfold nanmax, nanmin, nanmean.
  apply Forall_cons in Hall as [[x ->] _]. unfold dropna. csimpl.
  repeat split; by eexists.
Qed.

Lemma sum_target_has_no_nan_witness :
  Forall (λ v, is_Some v) (series_for_kpis ["east"; "west"] ["west"] regional_frame) ∧
  ∀ k, kpi_cards (series_for_kpis ["east"; "west"] ["west"] regional_frame) = Some k →
       is_Some (peak k) ∧ is_Some (trough k) ∧ is_Some (average k).
Proof.
  apply (sum_target_has_no_nan ["east"; "west"] ["west"] regional_frame).
  compute_done.
Defined.

Lemma bin_edges_nonempty w lo hi :
  0 < w → lo ≤ hi → bucket_start w lo ∈ bin_edges w lo hi.
Proof.
  intros Hw Hle. apply elem_of_bin_edges; [done|].
  split; [apply bucket_start_divide|].
  pose proof (bucket_start_mono w lo hi Hw Hle). lia.
Qed.

Lemma foldr_min_le_max t0 ts : foldr Z.min t0 ts ≤ foldr Z.max t0 ts.
Proof.
  destruct (foldr_min_spec t0 ts) as [_ Hlo].
  destruct (foldr_max_spec t0 ts) as [_ Hhi].
  specialize (Hlo t0 ltac:(left)). specialize (Hhi t0 ltac:(left)). lia.
Qed.

Lemma resample_width_nil w cols rs :
  0 < w → resample_width w cols rs = [] ↔ omap timestamp rs = [].
Proof.
  intros Hw. unfold resample_width.
  destruct (omap timestamp rs) as [|t0 ts]; [done|]. split; [|done].
  intros Hnil%fmap_nil_inv.
  pose proof (bin_edges_nonempty w _ _ Hw (foldr_min_le_max t0 ts)) as Hin.
  rewrite Hnil in Hin. by apply elem_of_nil in Hin.
Qed.

Lemma omap_timestamp_nil_window start end_ df :
  omap timestamp (time_filter start end_ df) = [] ↔ time_filter start end_ df = [].
Proof.
  split; [|by intros ->]. intros Hnil.
  pose proof (time_filter_timestamps start end_ df) as Hts.
  rewrite Hnil in Hts. by apply fmap_nil_inv in Hts.
Qed.

Lemma out_kpis_None_iff df numeric_cols cfg :
  out_kpis (run df numeric_cols cfg) = None ↔
  time_filter (start cfg) (end_ cfg) df = [].
Proof.
  unfold run. cbn [out_kpis].
  rewrite <-omap_timestamp_nil_window,
    <-(resample_width_nil _ numeric_cols _ (rule_width_pos (resample_rule cfg))).
  fold (resample (resample_rule cfg) numeric_cols
          (time_filter (start cfg) (end_ cfg) df)).
  set (view := Frame numeric_cols _).
  pose proof (length_series_for_kpis numeric_cols (selected_zones cfg) view) as Hlen.
  change (resample _ _ _) with (rows view).
  unfold kpi_cards.
  destruct (series_for_kpis _ _ _), (rows view); by simplify_eq/=.
Qed.

(** X14: the KPI cards are skipped exactly when no row of the dataset lies in the
    window; whatever the zones, the selection or the resample rule. *)
Lemma kpis_skipped_iff_window_empty df numeric_cols cfg :
  out_kpis (run df numeric_cols cfg) = None ↔
  time_filter (start cfg) (end_ cfg) df = [].
Proof. apply out_kpis_None_iff. Qed.



(** X15: the percent change is a number only for a target of two or more points
    that starts with a number other than zero and ends with a number; its
    sign then tells whether the target ends above or below its start,
    whatever the sign of the start. *)
Lemma pct_sign target p :
  pct target = Some p →
  ∃ f l,
    head target = Some (Some f) ∧ last target = Some (Some l) ∧
    (2 ≤ length target)%nat ∧ f ≠ 0%Qc ∧
    ((0 < p)%Qc ↔ (f < l)%Qc) ∧ (p = 0%Qc ↔ f = l).
Proof.
  unfold pct. destruct target as [|first rest]; [done|].
  destruct (last (first :: rest)) as [lst|] eqn:Hlast; [|done].
  destruct (bool_decide _) eqn:Hlen; [|done]. apply bool_decide_eq_true in Hlen.
  destruct (nonzero first) eqn:Hnz; [|done]. simpl.
  destruct first as [f|]; [|done]. destruct lst as [l|]; [|done].
  intros [= <-]. exists f, l. split; [done|]. split; [done|]. split; [done|].
  apply nonzero_true in Hnz.
  assert (f ≠ 0%Qc) as Hf by congruence. split; [done|].
  assert (0 < Qcabs f)%Qc as Habs.
  { destruct (Qcle_lt_or_eq _ _ (Qcabs_nonneg f)) as [?|Heq]; [done|].
    symmetry in Heq. by apply Qcabs_null in Heq. }
  assert (0 < / Qcabs f * Qc_of_Z 100)%Qc as Hc.
  { apply Qcmult_pos_pos; [by apply Qcinv_pos|].
    rewrite <-Z2Qc_inj_0, <-Z2Qc_inj_lt. lia. }
  replace ((l - f) / Qcabs f * Qc_of_Z 100)%Qc
    with ((l - f) * (/ Qcabs f * Qc_of_Z 100))%Qc by (unfold Qcdiv; ring).
  split.
  - rewrite <-(Qcmult_0_l (/ Qcabs f * Qc_of_Z 100)) at 1.
    rewrite <-Qcmult_lt_mono_pos_r by done.
    rewrite (Qclt_minus_iff f l). done.
  - split.
    + intros [Hlf|Hc0]%Qcmult_integral.
      * transitivity ((l - f) + f)%Qc; [rewrite Hlf|]; ring.
      * rewrite Hc0 in Hc. by apply Qclt_not_eq in Hc.
    + intros ->. ring.
Qed.

Lemma pct_sign_witness :
  ∃ f l,
    head [Some (q (-20)); Some (q 10)] = Some (Some f) ∧
    last [Some (q (-20)); Some (q 10)] = Some (Some l) ∧
    (2 ≤ length [Some (q (-20)); Some (q 10)])%nat ∧ f ≠ 0%Qc ∧
    ((0 < q 150)%Qc ↔ (f < l)%Qc) ∧ (q 150 = 0%Qc ↔ f = l).
Proof. apply (pct_sign [Some (q (-20)); Some (q 10)] (q 150)). compute_done. Defined.

(** ** More on resampling *)







(** X18: a row that is alone in its bucket passes its values of the listed zones
    on to the entry of that bucket unchanged. *)
Lemma resample_lone_row rule cols rs e b r :
  e ∈ resample rule cols rs → timestamp e = Some b →
  filter (in_bucket (rule_width rule) b) rs = [r] →
  ∀ z, z ∈ cols → zones e !! z = zones r !! z.
Proof.
  pose proof (rule_width_pos rule) as Hw. unfold resample.
  intros (t0 & ts & b' & _ & Hb & ->)%elem_of_resample_width [= ->] Hlone z Hz.
  apply (elem_of_bin_edges _ _ _ _ Hw) in Hb as [Hdiv _]. simpl.
  rewrite (list_filter_iff _ (in_bucket (rule_width rule) b));
    [|intros x; by apply bucket_of_in_bucket].
  rewrite Hlone, group_mean_singleton. by rewrite decide_True.
Qed.

Lemma resample_lone_row_witness :
  zones (Row (Some (2 * hour_ns)) {[ "east" := q 7 ]}) !! "east" =
  zones (Row (Some (2 * hour_ns + 5 * minute_ns)) {[ "east" := q 7; "west" := q 2 ]})
    !! "east".
Proof.
  apply (resample_lone_row R1H ["east"]
           [ Row (Some 0) {[ "east" := q 5 ]};
             Row (Some (2 * hour_ns + 5 * minute_ns)) {[ "east" := q 7; "west" := q 2 ]} ]
           (Row (Some (2 * hour_ns)) {[ "east" := q 7 ]}) (2 * hour_ns)
           (Row (Some (2 * hour_ns + 5 * minute_ns)) {[ "east" := q 7; "west" := q 2 ]}));
    compute_done.
Defined.

Lemma bin_edges_length w lo hi :
  0 < w → lo ≤ hi →
  Z.of_nat (length (bin_edges w lo hi)) =
  (bucket_start w hi - bucket_start w lo) `div` w + 1.
Proof.
  intros Hw Hle. unfold bin_edges. rewrite length_fmap, length_seqZ.
  pose proof (bucket_start_mono w lo hi Hw Hle).
  assert (0 ≤ (bucket_start w hi - bucket_start w lo) `div` w)
    by (apply Z.div_pos; lia).
  lia.
Qed.

Lemma bin_edges_head w lo hi :
  0 < w → lo ≤ hi → head (bin_edges w lo hi) = Some (bucket_start w lo).
Proof.
  intros Hw Hle. unfold bin_edges.
  pose proof (bucket_start_mono w lo hi Hw Hle).
  assert (0 ≤ (bucket_start w hi - bucket_start w lo) `div` w)
    by (apply Z.div_pos; lia).
  rewrite seqZ_cons by lia. simpl. f_equal. lia.
Qed.

Lemma bin_edges_last w lo hi :
  0 < w → lo ≤ hi → last (bin_edges w lo hi) = Some (bucket_start w hi).
Proof.
  intros Hw Hle. pose proof (bin_edges_length w lo hi Hw Hle) as Hlen.
  rewrite last_lookup. unfold bin_edges in *.
  rewrite length_fmap in *. rewrite list_lookup_fmap.
  destruct (bucket_start_divide w lo) as [kl Hl].
  destruct (bucket_start_divide w hi) as [kh Hh].
  pose proof (bucket_start_mono w lo hi Hw Hle) as Hmono.
  rewrite Hl, Hh in *.
  replace (kh * w - kl * w) with ((kh - kl) * w) in * by lia.
  rewrite Z.div_mul in * by lia.
  rewrite lookup_seqZ_lt by lia. simpl. f_equal. nia.
Qed.

(** X19: the resampled frame starts with the bucket of the earliest row and ends
    with the bucket of the latest row, so its first and last entries are
    never empty buckets; its number of entries is the distance between these
    two buckets counted in bucket widths, plus one. *)
Lemma resample_endpoints rule cols rs a b :
  min_t rs = Some a → max_t rs = Some b →
  let w := rule_width rule in
  timestamp <$> head (resample rule cols rs) = Some (Some (bucket_start w a)) ∧
  timestamp <$> last (resample rule cols rs) = Some (Some (bucket_start w b)) ∧
  Z.of_nat (length (resample rule cols rs)) =
    (bucket_start w b - bucket_start w a) `div` w + 1.
Proof.
  intros Ha Hb w. pose proof (rule_width_pos rule) as Hw. fold w in Hw.
  unfold min_t, max_t, resample, resample_width in *. fold w.
  destruct (omap timestamp rs) as [|t0 ts]; [done|].
  injection Ha as <-. injection Hb as <-.
  pose proof (foldr_min_le_max t0 ts) as Hle.
  split; [|split].
  - rewrite head_lookup, list_lookup_fmap, <-head_lookup.
    by rewrite bin_edges_head.
  - rewrite fmap_last. by rewrite bin_edges_last.
  - rewrite length_fmap. by apply bin_edges_length.
Qed.

Lemma resample_endpoints_witness :
  let w := rule_width R1H in
  timestamp <$> head (resample R1H ["east"] gap_rows) =
    Some (Some (bucket_start w 0)) ∧
  timestamp <$> last (resample R1H ["east"] gap_rows) =
    Some (Some (bucket_start w (2 * hour_ns))) ∧
  Z.of_nat (length (resample R1H ["east"] gap_rows)) =
    (bucket_start w (2 * hour_ns) - bucket_start w 0) `div` w + 1.
Proof.
  apply (resample_endpoints R1H ["east"] gap_rows 0 (2 * hour_ns)); reflexivity.
Defined.

(** ** The daily chart *)

Lemma bucket_start_coarser w W t :
  0 < w → 0 < W → (w | W) → bucket_start W (bucket_start w t) = bucket_start W t.
Proof.
  intros Hw HW [k ->]. unfold bucket_start. f_equal.
  assert (0 < k) by nia.
  rewrite (Z.mul_comm k w), Z.div_mul_cancel_l by lia.
  by rewrite Z.div_div by lia.
Qed.

Lemma rule_width_divides_day rule : (rule_width rule | rule_width R1D).
Proof.
  destruct rule;
    [exists 288|exists 96|exists 48|exists 24|exists 4|exists 1]; reflexivity.
Qed.

Lemma omap_timestamp_resample_edges w cols rs t0 ts :
  0 < w → omap timestamp rs = t0 :: ts →
  ∃ b0 bs,
    omap timestamp (resample_width w cols rs) = b0 :: bs ∧
    foldr Z.min b0 bs = bucket_start w (foldr Z.min t0 ts) ∧
    foldr Z.max b0 bs = bucket_start w (foldr Z.max t0 ts).
Proof.
  intros Hw Hts. pose proof (foldr_min_le_max t0 ts) as Hle.
  set (lo := foldr Z.min t0 ts) in *. set (hi := foldr Z.max t0 ts) in *.
  pose proof (bucket_start_mono w lo hi Hw Hle) as Hmono.
  assert (omap timestamp (resample_width w cols rs) = bin_edges w lo hi) as ->.
  { unfold resample_width. rewrite Hts. fold lo hi.
    induction (bin_edges w lo hi) as [|b bs IH]; [done|]. csimpl. by rewrite IH. }
  destruct (bin_edges w lo hi) as [|b0 bs] eqn:Hbs.
  { pose proof (bin_edges_nonempty w lo hi Hw Hle) as Hin.
    rewrite Hbs in Hin. by apply elem_of_nil in Hin. }
  assert (∀ b, b ∈ b0 :: bs ↔ (w | b) ∧ bucket_start w lo ≤ b ≤ bucket_start w hi)
    as Hspec.
  { intros b. rewrite <-Hbs. by apply elem_of_bin_edges. }
  exists b0, bs. split; [done|]. split.
  - apply foldr_min_unique.
    + apply Hspec. split; [apply bucket_start_divide|lia].
    + intros t Ht%Hspec. lia.
  - apply foldr_max_unique.
    + apply Hspec. split; [apply bucket_start_divide|lia].
    + intros t Ht%Hspec. lia.
Qed.

Lemma resample_width_coarser_timestamps w W cols cols' rs :
  0 < w → 0 < W → (w | W) →
  timestamp <$> resample_width W cols' (resample_width w cols rs) =
  timestamp <$> resample_width W cols' rs.
Proof.
  intros Hw HW Hdiv. destruct (omap timestamp rs) as [|t0 ts] eqn:Hts.
  { assert (resample_width w cols rs = []) as ->; [by apply resample_width_nil|].
    unfold resample_width. by rewrite Hts. }
  destruct (omap_timestamp_resample_edges w cols rs t0 ts Hw Hts) as
    (b0 & bs & Hbs & Hmin & Hmax).
  rewrite (omap_timestamp_resample_width _ _ _ _ _ Hbs),
    (omap_timestamp_resample_width _ _ _ _ _ Hts), Hmin, Hmax.
  unfold bin_edges. by rewrite !bucket_start_coarser.
Qed.

(** X20: the daily chart has one bar for every day from the day of the first row
    of the window to the day of its last row, whichever resample rule is
    chosen for the view it is computed from; and under the rule 1D the daily
    frame is the view itself. *)
Lemma daily_chart_days df numeric_cols cfg :
  timestamp <$> rows (out_day (run df numeric_cols cfg)) =
    timestamp <$> resample R1D numeric_cols
                    (time_filter (start cfg) (end_ cfg) df) ∧
  (resample_rule cfg = R1D →
   out_day (run df numeric_cols cfg) = out_view (run df numeric_cols cfg)).
Proof.
  unfold run. cbn [out_day out_view rows]. split.
  - apply resample_width_coarser_timestamps;
      [apply rule_width_pos..|apply rule_width_divides_day].
  - intros ->. f_equal. apply resample_width_idemp, rule_width_pos.
Qed.

(** ** The line chart *)

Lemma melt_cons z vars view :
  melt (z :: vars) view =
  ((λ r, Melted (timestamp r) z (zones r !! z)) <$> view) ++ melt vars view.
Proof. done. Qed.

Lemma length_melt vars view :
  length (melt vars view) = (length vars * length view)%nat.
Proof.
  induction vars as [|z vars IH]; [done|].
  rewrite melt_cons, length_app, length_fmap, IH. simpl. lia.
Qed.

Lemma melt_other_zone vars view z :
  z ∉ vars → filter (λ m, m_zone m = z) (melt vars view) = [].
Proof.
  intros Hz. apply filter_none, Forall_forall.
  intros m Hm Hzone. apply Hz. clear Hz.
  induction vars as [|v vars IH]; [by apply elem_of_nil in Hm|].
  rewrite melt_cons in Hm. apply elem_of_app in Hm as [Hm|Hm].
  - apply list_elem_of_fmap in Hm as (r & -> & _). simpl in Hzone. subst. left.
  - right. by apply IH.
Qed.

Lemma melt_same_zone (view : list row) z :
  filter (λ m, m_zone m = z) ((λ r, Melted (timestamp r) z (zones r !! z)) <$> view) =
  (λ r, Melted (timestamp r) z (zones r !! z)) <$> view.
Proof.
  induction view as [|r view IH]; [done|].
  rewrite fmap_cons, filter_cons_True by done. by rewrite IH.
Qed.

(** X21: the long table behind the line chart has one row per selected zone and
    row of the view, and the rows that carry a zone's name are exactly that
    zone's column of the view, with its timestamps, in the order of the
    view.  With nothing selected no chart is drawn. *)
Lemma trend_data_lines sel view :
  NoDup sel →
  (trend_data sel view = None ↔ sel = []) ∧
  ∀ data, trend_data sel view = Some data →
    length data = (length sel * length view)%nat ∧
    ∀ z, z ∈ sel →
      filter (λ m, m_zone m = z) data =
      (λ r, Melted (timestamp r) z (zones r !! z)) <$> view.
Proof.
  intros Hnd. split; [by destruct sel|].
  intros data Hdata.
  assert (data = melt sel view) as -> by (destruct sel; by simplify_eq/=).
  clear Hdata. split; [apply length_melt|].
  intros z Hz. induction Hnd as [|v vars Hv Hnd IH]; [by apply elem_of_nil in Hz|].
  rewrite melt_cons, filter_app. destruct (decide (z = v)) as [->|Hne].
  - by rewrite melt_same_zone, melt_other_zone, app_nil_r.
  - apply elem_of_cons in Hz as [?|Hz]; [done|]. rewrite IH by done.
    rewrite filter_none; [done|]. apply Forall_forall.
    intros m (r & -> & _)%list_elem_of_fmap. simpl. congruence.
Qed.

Lemma trend_data_lines_witness :
  (trend_data ["west"; "east"] (rows regional_frame) = None ↔ ["west"; "east"] = []) ∧
  ∀ data, trend_data ["west"; "east"] (rows regional_frame) = Some data →
    length data = (length ["west"; "east"] * length (rows regional_frame))%nat ∧
    ∀ z, z ∈ ["west"; "east"] →
      filter (λ m, m_zone m = z) data =
      (λ r, Melted (timestamp r) z (zones r !! z)) <$> rows regional_frame.
Proof.
  apply (trend_data_lines ["west"; "east"] (rows regional_frame)). compute_done.
Defined.

(** ** The top and bottom charts *)

Global Instance rank_le_trans : Transitive rank_le.
Proof.
  intros [? [x|]] [? [y|]] [? [z|]]; unfold rank_le; simpl; try done.
  intros ??. by etrans.
Qed.

Global Instance rank_le_total : Total rank_le.
Proof.
  intros [? [x|]] [? [y|]]; unfold rank_le; simpl; try tauto.
  destruct (Qc_le_total x y); tauto.
Qed.

Lemma length_zone_means numeric_cols view :
  length (zone_means numeric_cols view) = length numeric_cols.
Proof.
  unfold zone_means. by rewrite merge_sort_Permutation, length_fmap.
Qed.

(** X22: the top chart shows the first [top_n] zones of the ranking, or all of
    them when there are fewer, and none of the zones left out ranks before
    one that is shown; the bottom chart shows the last [top_n] zones, from
    the lowest average up, and none of the zones left out ranks after one
    that is shown.  On a dataset of at most [top_n] zones both charts show
    every zone. *)
Lemma top_bottom_charts numeric_cols view top_n :
  let ranked := zone_means numeric_cols view in
  length (top_df top_n ranked) = (top_n `min` length numeric_cols)%nat ∧
  length (bottom_chart top_n ranked) = (top_n `min` length numeric_cols)%nat ∧
  (∀ x y, x ∈ top_df top_n ranked → y ∈ drop top_n ranked → rank_ge x y) ∧
  (∀ x y, x ∈ take (length ranked - top_n) ranked → y ∈ bottom_chart top_n ranked →
          rank_ge x y) ∧
  bottom_chart top_n ranked ≡ₚ bottom_df top_n ranked ∧
  StronglySorted rank_le (bottom_chart top_n ranked) ∧
  ((length numeric_cols ≤ top_n)%nat →
   top_df top_n ranked = ranked ∧ bottom_chart top_n ranked ≡ₚ ranked).
Proof.
  intros ranked.
  pose proof (length_zone_means numeric_cols view) as Hlen. fold ranked in Hlen.
  assert (StronglySorted rank_ge ranked) as Hsorted
    by apply (StronglySorted_merge_sort _).
  unfold top_df, bottom_chart, bottom_df, head_n, tail_n.
  split; [|split; [|split; [|split; [|split; [|split]]]]].
  - rewrite length_take. lia.
  - rewrite merge_sort_Permutation, length_drop. lia.
  - intros x y Hx Hy. rewrite <-(take_drop top_n ranked) in Hsorted.
    by eapply StronglySorted_app_1_elem_of.
  - intros x y Hx Hy. rewrite merge_sort_Permutation in Hy.
    rewrite <-(take_drop (length ranked - top_n) ranked) in Hsorted.
    by eapply StronglySorted_app_1_elem_of.
  - apply merge_sort_Permutation.
  - apply (StronglySorted_merge_sort _).
  - intros Hle. split; [apply take_ge; lia|].
    rewrite merge_sort_Permutation.
    by replace (length ranked - top_n)%nat with 0%nat by lia.
Qed.

Example top_bottom_regional :
  top_df 2 (zone_means ["east"; "west"; "north"] regional_frame) =
    [ ("west", Some (q 20)); ("east", Some (Qc_of_Z 25 / Qc_of_Z 2)%Qc) ] ∧
  bottom_chart 2 (zone_means ["east"; "west"; "north"] regional_frame) =
    [ ("east", Some (Qc_of_Z 25 / Qc_of_Z 2)%Qc); ("north", None) ].
Proof. split; compute_done. Qed.

(** ** The column of the daily and hourly charts *)

(** X23: when the selection only names zones of the dataset, the column of the
    daily and hourly charts is a zone of the dataset whenever it is defined,
    and the lookup [numeric_cols[0]] raises exactly on a dataset without
    zones. *)
Lemma ycol_valid numeric_cols sel day :
  columns day = numeric_cols → sel ⊆ numeric_cols →
  (ycol numeric_cols sel day = None ↔ numeric_cols = []) ∧
  ∀ c, ycol numeric_cols sel day = Some c → c ∈ numeric_cols.
Proof.
  intros Hcols Hsel. unfold ycol. rewrite Hcols.
  case_decide as Hrto.
  - split; [|by intros c [= <-]].
    split; [done|]. intros ->. by apply elem_of_nil in Hrto.
  - destruct sel as [|z sel].
    + split; [by destruct numeric_cols|].
      intros c Hc. by apply head_Some_elem_of.
    + assert (z ∈ numeric_cols) as Hz by (apply Hsel; left).
      split; [|by intros c [= <-]].
      split; [done|]. intros ->. by apply elem_of_nil in Hz.
Qed.

Lemma ycol_valid_witness :
  (ycol ["east"; "west"] ["west"] regional_frame = None ↔ ["east"; "west"] = []) ∧
  ∀ c, ycol ["east"; "west"] ["west"] regional_frame = Some c → c ∈ ["east"; "west"].
Proof.
  apply (ycol_valid ["east"; "west"] ["west"] regional_frame); [done|].
  intros c ->%list_elem_of_singleton. compute_done.
Defined.

(** ** The hourly pattern *)

Lemma hour_of_range t : 0 ≤ hour_of t < 24.
Proof.
  unfold hour_of.
  assert (0 ≤ t `mod` day_ns < day_ns) as Hmod by (by apply Z.mod_pos_bound).
  split; [apply Z.div_pos; [lia|done]|].
  apply Z.div_lt_upper_bound; [done|]. change (hour_ns * 24) with day_ns. lia.
Qed.

Lemma elem_of_hourly c view h v :
  (h, v) ∈ hourly c view ↔
  (∃ r, r ∈ view ∧ hour_of <$> timestamp r = Some h) ∧
  v = mean (present c (hour_group h view)).
Proof.
  unfold hourly. rewrite list_elem_of_omap. split.
  - intros (h' & _ & Hh').
    destruct (hour_group h' view) as [|r grp] eqn:Hgrp; [done|].
    injection Hh' as Hh Hv. subst h' v. split; [|by rewrite Hgrp].
    assert (r ∈ hour_group h view) as Hr by (rewrite Hgrp; left).
    apply list_elem_of_filter in Hr as [? ?]. by exists r.
  - intros [(r & Hr & Hh) ->]. exists h. split.
    + apply elem_of_seqZ. destruct (timestamp r) as [t|]; [|done].
      injection Hh as <-. pose proof (hour_of_range t). lia.
    + assert (r ∈ hour_group h view) as Hin by (by apply list_elem_of_filter).
      destruct (hour_group h view); [by apply elem_of_nil in Hin|done].
Qed.

Lemma hourly_hours_sublist c view : (hourly c view).*1 `sublist_of` seqZ 0 24.
Proof.
  unfold hourly. induction (seqZ 0 24) as [|h hs IH]; [done|]. csimpl.
  destruct (hour_group h view); csimpl; by constructor.
Qed.

Lemma sublist_StronglySorted {A} (R : relation A) (l1 l2 : list A) :
  l1 `sublist_of` l2 → StronglySorted R l2 → StronglySorted R l1.
Proof.
  induction 1 as [|x l1 l2 Hsub IH|x l1 l2 Hsub IH]; [done|..].
  - intros [Hl2 Hx]%StronglySorted_inv. constructor; [by apply IH|].
    apply Forall_forall. intros y Hy. rewrite Forall_forall in Hx.
    apply Hx. by eapply elem_of_sublist.
  - intros [Hl2 _]%StronglySorted_inv. by apply IH.
Qed.

(** X24: the hourly pattern has one point for every clock hour at which the view
    has a row, and no point for any other hour; the points come in
    ascending order of the hour, between 0 and 23, and the value of a point
    is the mean of the values of the chosen zone that are present in the
    rows of that clock hour, whatever their date. *)
Lemma hourly_pattern c view :
  (∀ h v, (h, v) ∈ hourly c view ↔
     (∃ r, r ∈ view ∧ hour_of <$> timestamp r = Some h) ∧
     v = mean (present c (hour_group h view))) ∧
  StronglySorted Z.lt (hourly c view).*1 ∧
  Forall (λ h, 0 ≤ h < 24) (hourly c view).*1.
Proof.
  split; [intros h v; apply elem_of_hourly|]. split.
  - eapply sublist_StronglySorted; [apply hourly_hours_sublist|].
    apply StronglySorted_seqZ.
  - apply Forall_forall. intros h Hh.
    eapply elem_of_sublist in Hh; [|apply hourly_hours_sublist].
    apply elem_of_seqZ in Hh. lia.
Qed.

Example hourly_three_days :
  hourly "east"
    [ Row (Some (1 * hour_ns)) {[ "east" := q 10 ]};
      Row (Some (2 * hour_ns)) {[ "east" := q 20 ]};
      Row (Some (25 * hour_ns)) {[ "east" := q 30 ]};
      Row (Some (26 * hour_ns)) ∅;
      Row (Some (- 23 * hour_ns)) {[ "east" := q 50 ]} ] =
  [ (1, Some (q 30)); (2, Some (q 20)) ].
Proof. compute_done. Qed.

Lemma hour_of_multiple_of_day k : hour_of (k * rule_width R1D) = 0.
Proof.
  unfold hour_of. change (rule_width R1D) with day_ns.
  by rewrite Z.mod_mul.
Qed.

Lemma hour_of_multiple_of_6h k : (6 | hour_of (k * rule_width R6H)).
Proof.
  unfold hour_of. change (rule_width R6H) with (6 * hour_ns).
  change day_ns with (4 * (6 * hour_ns)).
  rewrite Z.mul_mod_distr_r by done.
  exists (k `mod` 4).
  rewrite Z.mul_assoc, Z.div_mul by done. lia.
Qed.

(** X25: the hourly pattern is drawn from the resampled view, so under the rule
    1D it has no other point than hour 0, and under the rule 6H only points
    at hours that are multiples of 6. *)
Lemma hourly_of_coarse_view c cols rs rule h v :
  (h, v) ∈ hourly c (resample rule cols rs) →
  (rule = R1D → h = 0) ∧ (rule = R6H → (6 | h)).
Proof.
  intros [(e & He & Hh) _]%elem_of_hourly.
  unfold resample in He.
  apply elem_of_resample_width in He as (t0 & ts & b & _ & Hb & ->).
  apply elem_of_bin_edges in Hb as [[k ->] _]; [|apply rule_width_pos].
  simpl in Hh. injection Hh as <-. split; intros ->.
  - apply hour_of_multiple_of_day.
  - apply hour_of_multiple_of_6h.
Qed.

Lemma hourly_of_coarse_view_witness :
  (R1D = R1D → 0 = 0) ∧ (R1D = R6H → (6 | 0)).
Proof.
  apply (hourly_of_coarse_view "east" ["east"] gap_rows R1D 0 (Some (q 6))).
  compute_done.
Defined.
